(** * fake_nvml.c: the fake NVIDIA Management Library

    A shallow embedding of the preloadable NVML shim ([fake_nvml.c]) and the
    properties of its entry points.

    The library owns three pieces of static state: the array [g_fake_gpus],
    the flag [g_initialized], and (through the [LOG] macro) the standard
    error stream.  Everything else an entry point touches belongs to the
    caller and is reached through the pointers it passes in.  Caller memory
    is modelled as a finite map from object identifiers to typed objects; a
    pointer is either [NULL] or the address of such an object.  Undefined
    behaviour of the C program (dereferencing [NULL], a pointer to no
    object, a copy that runs over the end of a buffer) is an explicit
    [fault] result: an entry point is a function from states to either a
    fault or a return value and a new state. *)

From Stdlib Require Import ZArith String Ascii DecimalString.
From stdpp Require Import base gmap list strings.

Open Scope Z_scope.

(** ** NVML type definitions (from nvml.h) *)

Inductive nvmlReturn_t :=
| NVML_SUCCESS
| NVML_ERROR_UNINITIALIZED
| NVML_ERROR_INVALID_ARGUMENT
| NVML_ERROR_NOT_SUPPORTED
| NVML_ERROR_NO_PERMISSION
| NVML_ERROR_ALREADY_INITIALIZED
| NVML_ERROR_NOT_FOUND
| NVML_ERROR_INSUFFICIENT_SIZE
| NVML_ERROR_INSUFFICIENT_POWER
| NVML_ERROR_DRIVER_NOT_LOADED
| NVML_ERROR_TIMEOUT
| NVML_ERROR_FUNCTION_NOT_FOUND
| NVML_ERROR_UNKNOWN.

(** The enumerators' integer values. *)
Definition nvmlReturn_code (r : nvmlReturn_t) : Z :=
  match r with
  | NVML_SUCCESS => 0
  | NVML_ERROR_UNINITIALIZED => 1
  | NVML_ERROR_INVALID_ARGUMENT => 2
  | NVML_ERROR_NOT_SUPPORTED => 3
  | NVML_ERROR_NO_PERMISSION => 4
  | NVML_ERROR_ALREADY_INITIALIZED => 5
  | NVML_ERROR_NOT_FOUND => 6
  | NVML_ERROR_INSUFFICIENT_SIZE => 7
  | NVML_ERROR_INSUFFICIENT_POWER => 8
  | NVML_ERROR_DRIVER_NOT_LOADED => 9
  | NVML_ERROR_TIMEOUT => 10
  | NVML_ERROR_FUNCTION_NOT_FOUND => 13
  | NVML_ERROR_UNKNOWN => 999
  end.

(** All enumerators, in declaration order. *)
Definition nvmlReturn_all : list nvmlReturn_t :=
  [ NVML_SUCCESS; NVML_ERROR_UNINITIALIZED; NVML_ERROR_INVALID_ARGUMENT;
    NVML_ERROR_NOT_SUPPORTED; NVML_ERROR_NO_PERMISSION;
    NVML_ERROR_ALREADY_INITIALIZED; NVML_ERROR_NOT_FOUND;
    NVML_ERROR_INSUFFICIENT_SIZE; NVML_ERROR_INSUFFICIENT_POWER;
    NVML_ERROR_DRIVER_NOT_LOADED; NVML_ERROR_TIMEOUT;
    NVML_ERROR_FUNCTION_NOT_FOUND; NVML_ERROR_UNKNOWN ].

#[global] Instance nvmlReturn_eq_dec : EqDecision nvmlReturn_t.
Proof. solve_decision. Defined.

Definition NVML_BRAND_UNKNOWN : Z := 0.
Definition NVML_BRAND_TESLA : Z := 2.
Definition NVML_FEATURE_DISABLED : Z := 0.
Definition NVML_FEATURE_ENABLED : Z := 1.

Definition NVML_DEVICE_NAME_BUFFER_SIZE : Z := 64.
Definition NVML_DEVICE_UUID_BUFFER_SIZE : Z := 80.
Definition NVML_SYSTEM_DRIVER_VERSION_BUFFER_SIZE : Z := 80.
Definition NVML_DEVICE_PCI_BUS_ID_BUFFER_SIZE : Z := 32.

(** [nvmlDevice_t] is a pointer type.  The values a caller can hand in are
    the null pointer; the address of an element of the static array
    ([&g_fake_gpus[i]], the only handles the library ever issues); the
    address of an object of the caller's own, cast to the handle type (a
    forged handle, which the library reads through like any other); or an
    address at which no memory is mapped, so that nothing can be read. *)
Inductive nvmlDevice_t :=
| DevNull
| DevGpu (i : nat)
| DevObject (b : nat)
| DevForeign (a : positive).

#[global] Instance nvmlDevice_eq_dec : EqDecision nvmlDevice_t.
Proof. solve_decision. Defined.

(** A [char] array that holds a null-terminated string is represented by
    the string (the bytes before the terminator). *)
Record nvmlPciInfo_t := {
  busId : string;
  domain : Z;
  bus : Z;
  device : Z;
  pciDeviceId : Z;
  pciSubSystemId : Z
}.

Record fakeGpu_t := {
  index : Z;
  name : string;
  uuid : string;
  pci : nvmlPciInfo_t;
  handle : nvmlDevice_t
}.

(** ** Fake GPU state *)

Definition FAKE_GPU_COUNT : Z := 4.
Definition FAKE_GPU_NAME : string := "NVIDIA Tesla T4".
Definition FAKE_DRIVER_VERSION : string := "535.104.05".
Definition FAKE_CUDA_VERSION : Z := 12020.

(** ** Caller memory *)

(** Pointers to caller objects ([char*], [int*], [unsigned int*],
    [nvmlDevice_t*], [nvmlPciInfo_t*], ...): null, or the address of the
    start of an object.  [g_fake_gpus] is [static]; a caller has no address
    in it to pass as an output pointer other than a handle, which has a type
    of its own. *)
Inductive ptr :=
| NULL
| Loc (b : nat).

#[global] Instance ptr_eq_dec : EqDecision ptr.
Proof. solve_decision. Defined.

(** The objects a caller passes the address of: a 32-bit cell ([int],
    [unsigned int] or an enum), a handle cell, a PCI record, a [char]
    array of a given capacity (the length of the list), or readable memory
    of the size of a [fakeGpu_t], given by what the library finds when it
    reads it as one: the [int] at the offset of [index], the strings that
    start at the offsets of [name] and [uuid], the PCI record. *)
Inductive object :=
| OWord (v : Z)
| ODevice (h : nvmlDevice_t)
| OPciInfo (p : nvmlPciInfo_t)
| OChars (bs : list ascii)
| OGpu (g : fakeGpu_t).

(** What was written to the standard error stream by one [LOG]. *)
Record logline := {
  log_time : Z;
  log_pid : Z;
  log_func : string;
  log_msg : string
}.

(** The process environment an entry point runs in: what [getenv] answers
    ([None] is the null pointer), the clock and the process id. *)
Record world := {
  getenv : string → option string;
  time : Z;
  getpid : Z
}.

Record state := {
  g_fake_gpus : list fakeGpu_t;
  g_initialized : Z;
  stderr : list logline;
  heap : gmap nat object
}.

Definition set_fake_gpus (gpus : list fakeGpu_t) (s : state) : state :=
  {| g_fake_gpus := gpus; g_initialized := g_initialized s;
     stderr := stderr s; heap := heap s |}.
Definition set_initialized (v : Z) (s : state) : state :=
  {| g_fake_gpus := g_fake_gpus s; g_initialized := v;
     stderr := stderr s; heap := heap s |}.
Definition set_stderr (l : list logline) (s : state) : state :=
  {| g_fake_gpus := g_fake_gpus s; g_initialized := g_initialized s;
     stderr := l; heap := heap s |}.
Definition set_heap (h : gmap nat object) (s : state) : state :=
  {| g_fake_gpus := g_fake_gpus s; g_initialized := g_initialized s;
     stderr := stderr s; heap := h |}.

(** Static storage is zero-initialised. *)
Definition zero_pci : nvmlPciInfo_t :=
  {| busId := ""; domain := 0; bus := 0; device := 0;
     pciDeviceId := 0; pciSubSystemId := 0 |}.
Definition zero_gpu : fakeGpu_t :=
  {| index := 0; name := ""; uuid := ""; pci := zero_pci; handle := DevNull |}.

(** The state when the library has just been loaded, over caller memory [h]. *)
Definition initial_state (h : gmap nat object) : state :=
  {| g_fake_gpus := replicate (Z.to_nat FAKE_GPU_COUNT) zero_gpu;
     g_initialized := 0; stderr := []; heap := h |}.

(** ** The monad of entry points: state and undefined behaviour *)

Inductive fault :=
| NullDereference
| InvalidPointer
| BufferOverflow.

Definition M (A : Type) : Type := state → fault + A * state.

#[global] Instance M_ret : MRet M := λ A a s, inr (a, s).
#[global] Instance M_bind : MBind M := λ A B f m s,
  match m s with
  | inl e => inl e
  | inr (a, s') => f a s'
  end.

Definition raise {A} (e : fault) : M A := λ _, inl e.
Definition gets {A} (f : state → A) : M A := λ s, inr (f s, s).
Definition modify (f : state → state) : M () := λ s, inr ((), f s).

(** ** C library functions *)

Definition NUL : ascii := "000"%char.

(** The string a [char] sequence holds: the bytes before the first null. *)
Fixpoint c_string (bs : list ascii) : list ascii :=
  match bs with
  | [] => []
  | c :: rest => if Ascii.eqb c NUL then [] else c :: c_string rest
  end.

(** The [n] bytes [strncpy(dst, src, n)] stores: the first [n] bytes of the
    string, then nulls up to [n] bytes in all when the string is shorter
    than [n].  No null is stored when the string has [n] bytes or more. *)
Definition strncpy_bytes (src : string) (n : nat) : list ascii :=
  let cs := c_string (list_ascii_of_string src) in
  take n cs ++ replicate (n - length cs) NUL.

Definition strncpy (dst : ptr) (src : string) (n : Z) : M () :=
  match dst with
  | NULL => raise NullDereference
  | Loc b => λ s,
      match heap s !! b with
      | Some (OChars old) =>
          if (Z.to_nat n <=? length old)%nat
          then inr ((), set_heap (<[b := OChars (strncpy_bytes src (Z.to_nat n)
                                                  ++ drop (Z.to_nat n) old)]> (heap s)) s)
          else inl BufferOverflow
      | _ => inl InvalidPointer
      end
  end.

(** [strlen]. *)
Definition strlen (src : string) : nat :=
  length (c_string (list_ascii_of_string src)).

(** [snprintf(buf, size, ...)] into an array of the library's own: at most
    [size - 1] bytes of the formatted text and a terminator. *)
Definition snprintf (size : Z) (formatted : string) : string :=
  string_of_list_ascii
    (take (Z.to_nat (size - 1)) (c_string (list_ascii_of_string formatted))).

(** The conversion ["%d"]. *)
Definition string_of_int (z : Z) : string :=
  NilZero.string_of_int (Z.to_int z).

(** Conversion to [unsigned int]. *)
Definition uint (z : Z) : Z := z mod 2 ^ 32.

(** [*p = v] for a 32-bit cell. *)
Definition store_word (p : ptr) (v : Z) : M () :=
  match p with
  | NULL => raise NullDereference
  | Loc b => λ s,
      match heap s !! b with
      | Some (OWord _) => inr ((), set_heap (<[b := OWord v]> (heap s)) s)
      | _ => inl InvalidPointer
      end
  end.

(** [*p = h] for a handle cell. *)
Definition store_device (p : ptr) (h : nvmlDevice_t) : M () :=
  match p with
  | NULL => raise NullDereference
  | Loc b => λ s,
      match heap s !! b with
      | Some (ODevice _) => inr ((), set_heap (<[b := ODevice h]> (heap s)) s)
      | _ => inl InvalidPointer
      end
  end.

(** [memcpy(p, &v, sizeof(nvmlPciInfo_t))]. *)
Definition memcpy_pci (p : ptr) (v : nvmlPciInfo_t) : M () :=
  match p with
  | NULL => raise NullDereference
  | Loc b => λ s,
      match heap s !! b with
      | Some (OPciInfo _) => inr ((), set_heap (<[b := OPciInfo v]> (heap s)) s)
      | _ => inl InvalidPointer
      end
  end.

(** [g_fake_gpus[i]], read. *)
Definition array_get (i : nat) : M fakeGpu_t := λ s,
  match g_fake_gpus s !! i with
  | Some gpu => inr (gpu, s)
  | None => inl InvalidPointer
  end.

(** The caller's object [b], read as a [fakeGpu_t].  An object of another
    kind has another size and layout; what a read of a [fakeGpu_t] finds in
    it and past its end is not described here and is left undefined. *)
Definition object_get (b : nat) : M fakeGpu_t := λ s,
  match heap s !! b with
  | Some (OGpu gpu) => inr (gpu, s)
  | _ => inl InvalidPointer
  end.

(** [(fakeGpu_t* )device] read through: the record the handle points at.
    No test is made of where the handle points; what is there is read. *)
Definition deref_gpu (device : nvmlDevice_t) : M fakeGpu_t :=
  match device with
  | DevNull => raise NullDereference
  | DevGpu i => array_get i
  | DevObject b => object_get b
  | DevForeign _ => raise InvalidPointer
  end.

(** ** Logging utility *)

(** The [LOG] macro: one line on the standard error stream when [getenv]
    finds [FAKE_NVML_LOG], and nothing otherwise.  The variable is looked up
    at every expansion. *)
Definition LOG (w : world) (func_name msg : string) : M () :=
  match getenv w "FAKE_NVML_LOG" with
  | Some _ =>
      modify (λ s, set_stderr (stderr s ++
        [ {| log_time := time w; log_pid := getpid w;
             log_func := func_name; log_msg := msg |} ]) s)
  | None => mret ()
  end.

(** ** NVML API implementations *)

(** What the body of the loop in [nvmlInit_v2] stores in [g_fake_gpus[i]]. *)
Definition fake_gpu (i : Z) : fakeGpu_t :=
  {| index := i;
     name := snprintf NVML_DEVICE_NAME_BUFFER_SIZE FAKE_GPU_NAME;
     uuid := snprintf NVML_DEVICE_UUID_BUFFER_SIZE
               ("GPU-" +:+ string_of_int i +:+ "-FAKE-UUID");
     pci := {| busId := snprintf NVML_DEVICE_PCI_BUS_ID_BUFFER_SIZE
                          ("00000000:0" +:+ string_of_int (i + 1) +:+ ":00.0");
               domain := 0;
               bus := uint (i + 1);
               device := 0;
               pciDeviceId := 0x1EB8;
               pciSubSystemId := 0x12A210DE |};
     handle := DevGpu (Z.to_nat i) |}.

(** [for (int i = 0; i < FAKE_GPU_COUNT; ++i) { g_fake_gpus[i] = ... }] *)
Definition populate (gpus : list fakeGpu_t) : list fakeGpu_t :=
  foldl (λ acc i, <[Z.to_nat i := fake_gpu i]> acc) gpus (seqZ 0 FAKE_GPU_COUNT).

Definition nvmlInit_v2 (w : world) : M nvmlReturn_t :=
  LOG w "nvmlInit_v2" "enter";;
  g ← gets g_initialized;
  if g =? 0 then
    modify (λ s, set_fake_gpus (populate (g_fake_gpus s)) s);;
    modify (set_initialized 1);;
    LOG w "nvmlInit_v2" "exit";;
    mret NVML_SUCCESS
  else mret NVML_ERROR_ALREADY_INITIALIZED.

Definition nvmlShutdown (w : world) : M nvmlReturn_t :=
  LOG w "nvmlShutdown" "enter";;
  g ← gets g_initialized;
  if g =? 0 then mret NVML_ERROR_UNINITIALIZED
  else
    modify (set_initialized 0);;
    LOG w "nvmlShutdown" "exit";;
    mret NVML_SUCCESS.

(** The [switch] of [nvmlErrorString]. *)
Definition error_label (result : Z) : string :=
  if result =? nvmlReturn_code NVML_SUCCESS then "Success"
  else if result =? nvmlReturn_code NVML_ERROR_UNINITIALIZED then "Uninitialized"
  else if result =? nvmlReturn_code NVML_ERROR_INVALID_ARGUMENT then "Invalid Argument"
  else if result =? nvmlReturn_code NVML_ERROR_NOT_SUPPORTED then "Not Supported"
  else if result =? nvmlReturn_code NVML_ERROR_NO_PERMISSION then "No Permission"
  else if result =? nvmlReturn_code NVML_ERROR_ALREADY_INITIALIZED then "Already Initialized"
  else if result =? nvmlReturn_code NVML_ERROR_NOT_FOUND then "Not Found"
  else if result =? nvmlReturn_code NVML_ERROR_INSUFFICIENT_SIZE then "Insufficient Size"
  else if result =? nvmlReturn_code NVML_ERROR_DRIVER_NOT_LOADED then "Driver Not Loaded"
  else if result =? nvmlReturn_code NVML_ERROR_FUNCTION_NOT_FOUND then "Function Not Found"
  else "Unknown Error".

Definition nvmlErrorString (w : world) (result : Z) : M string :=
  LOG w "nvmlErrorString" "enter";;
  LOG w "nvmlErrorString" ("Translating error code: " +:+ string_of_int result);;
  mret (error_label result).

Definition nvmlSystemGetDriverVersion (w : world) (version : ptr) (length : Z)
  : M nvmlReturn_t :=
  LOG w "nvmlSystemGetDriverVersion" "enter";;
  g ← gets g_initialized;
  if g =? 0 then mret NVML_ERROR_UNINITIALIZED
  else
    strncpy version FAKE_DRIVER_VERSION length;;
    LOG w "nvmlSystemGetDriverVersion" "exit";;
    mret NVML_SUCCESS.

Definition nvmlSystemGetCudaDriverVersion (w : world) (cudaDriverVersion : ptr)
  : M nvmlReturn_t :=
  LOG w "nvmlSystemGetCudaDriverVersion" "enter";;
  g ← gets g_initialized;
  if g =? 0 then mret NVML_ERROR_UNINITIALIZED
  else
    store_word cudaDriverVersion FAKE_CUDA_VERSION;;
    LOG w "nvmlSystemGetCudaDriverVersion" "exit";;
    mret NVML_SUCCESS.

Definition nvmlDeviceGetCount_v2 (w : world) (deviceCount : ptr) : M nvmlReturn_t :=
  LOG w "nvmlDeviceGetCount_v2" "enter";;
  g ← gets g_initialized;
  if g =? 0 then mret NVML_ERROR_UNINITIALIZED
  else
    store_word deviceCount (uint FAKE_GPU_COUNT);;
    LOG w "nvmlDeviceGetCount_v2" "exit";;
    mret NVML_SUCCESS.

(** [index] is an [unsigned int]: the comparison with [FAKE_GPU_COUNT] is
    unsigned, and a caller's negative [int] arrives as [uint] of it. *)
Definition nvmlDeviceGetHandleByIndex_v2 (w : world) (index : Z) (device : ptr)
  : M nvmlReturn_t :=
  LOG w "nvmlDeviceGetHandleByIndex_v2" "enter";;
  g ← gets g_initialized;
  if g =? 0 then mret NVML_ERROR_UNINITIALIZED
  else if index >=? uint FAKE_GPU_COUNT then mret NVML_ERROR_INVALID_ARGUMENT
  else
    gpu ← array_get (Z.to_nat index);
    store_device device (handle gpu);;
    LOG w "nvmlDeviceGetHandleByIndex_v2" "exit";;
    mret NVML_SUCCESS.

Definition nvmlDeviceGetName (w : world) (device : nvmlDevice_t) (name_ : ptr)
    (length : Z) : M nvmlReturn_t :=
  LOG w "nvmlDeviceGetName" "enter";;
  g ← gets g_initialized;
  if g =? 0 then mret NVML_ERROR_UNINITIALIZED
  else
    gpu ← deref_gpu device;
    strncpy name_ (name gpu) length;;
    LOG w "nvmlDeviceGetName" "exit";;
    mret NVML_SUCCESS.

Definition nvmlDeviceGetUUID (w : world) (device : nvmlDevice_t) (uuid_ : ptr)
    (length : Z) : M nvmlReturn_t :=
  LOG w "nvmlDeviceGetUUID" "enter";;
  g ← gets g_initialized;
  if g =? 0 then mret NVML_ERROR_UNINITIALIZED
  else
    gpu ← deref_gpu device;
    strncpy uuid_ (uuid gpu) length;;
    LOG w "nvmlDeviceGetUUID" "exit";;
    mret NVML_SUCCESS.

Definition nvmlDeviceGetPciInfo (w : world) (device : nvmlDevice_t) (pci_ : ptr)
  : M nvmlReturn_t :=
  LOG w "nvmlDeviceGetPciInfo" "enter";;
  g ← gets g_initialized;
  if g =? 0 then mret NVML_ERROR_UNINITIALIZED
  else
    gpu ← deref_gpu device;
    memcpy_pci pci_ (pci gpu);;
    LOG w "nvmlDeviceGetPciInfo" "exit";;
    mret NVML_SUCCESS.

Definition nvmlDeviceGetCudaComputeCapability (w : world) (device : nvmlDevice_t)
    (major minor : ptr) : M nvmlReturn_t :=
  LOG w "nvmlDeviceGetCudaComputeCapability" "enter";;
  g ← gets g_initialized;
  if g =? 0 then mret NVML_ERROR_UNINITIALIZED
  else if bool_decide (major = NULL) || bool_decide (minor = NULL)
  then mret NVML_ERROR_INVALID_ARGUMENT
  else
    store_word major 7;;
    store_word minor 5;;
    LOG w "nvmlDeviceGetCudaComputeCapability" "exit";;
    mret NVML_SUCCESS.

Definition nvmlDeviceGetBrand (w : world) (device : nvmlDevice_t) (type : ptr)
  : M nvmlReturn_t :=
  LOG w "nvmlDeviceGetBrand" "enter";;
  g ← gets g_initialized;
  if g =? 0 then mret NVML_ERROR_UNINITIALIZED
  else
    store_word type NVML_BRAND_TESLA;;
    LOG w "nvmlDeviceGetBrand" "exit";;
    mret NVML_SUCCESS.

Definition nvmlDeviceGetMinorNumber (w : world) (device : nvmlDevice_t)
    (minorNumber : ptr) : M nvmlReturn_t :=
  LOG w "nvmlDeviceGetMinorNumber" "enter";;
  g ← gets g_initialized;
  if g =? 0 then mret NVML_ERROR_UNINITIALIZED
  else
    gpu ← deref_gpu device;
    store_word minorNumber (uint (index gpu));;
    LOG w "nvmlDeviceGetMinorNumber" "exit";;
    mret NVML_SUCCESS.

Definition nvmlDeviceGetMigCapability (w : world) (device : nvmlDevice_t)
    (isMigCapable isMigGpu : ptr) : M nvmlReturn_t :=
  LOG w "nvmlDeviceGetMigCapability" "enter";;
  g ← gets g_initialized;
  if g =? 0 then mret NVML_ERROR_UNINITIALIZED
  else if bool_decide (isMigCapable = NULL) || bool_decide (isMigGpu = NULL)
  then mret NVML_ERROR_INVALID_ARGUMENT
  else
    store_word isMigCapable 0;;
    store_word isMigGpu 0;;
    LOG w "nvmlDeviceGetMigCapability" "exit";;
    mret NVML_SUCCESS.

Definition nvmlDeviceGetMigMode (w : world) (device : nvmlDevice_t)
    (currentMode pendingMode : ptr) : M nvmlReturn_t :=
  LOG w "nvmlDeviceGetMigMode" "enter";;
  g ← gets g_initialized;
  if g =? 0 then mret NVML_ERROR_UNINITIALIZED
  else if bool_decide (currentMode = NULL) || bool_decide (pendingMode = NULL)
  then mret NVML_ERROR_INVALID_ARGUMENT
  else
    store_word currentMode NVML_FEATURE_DISABLED;;
    store_word pendingMode NVML_FEATURE_DISABLED;;
    LOG w "nvmlDeviceGetMigMode" "exit";;
    mret NVML_SUCCESS.

(** Symbol aliases. *)
Definition nvmlInit := nvmlInit_v2.
Definition nvmlDeviceGetCount := nvmlDeviceGetCount_v2.
Definition nvmlDeviceGetHandleByIndex := nvmlDeviceGetHandleByIndex_v2.

(** ** Calls and runs *)

(** What an entry point returns: a result code, or for [nvmlErrorString]
    a string. *)
Inductive retval :=
| RCode (r : nvmlReturn_t)
| RString (str : string).

(** One call of an entry point with its arguments. *)
Inductive call :=
| Init
| Shutdown
| ErrorString (result : Z)
| SystemGetDriverVersion (version : ptr) (length : Z)
| SystemGetCudaDriverVersion (cudaDriverVersion : ptr)
| DeviceGetCount (deviceCount : ptr)
| DeviceGetHandleByIndex (index : Z) (device : ptr)
| DeviceGetName (device : nvmlDevice_t) (name : ptr) (length : Z)
| DeviceGetUUID (device : nvmlDevice_t) (uuid : ptr) (length : Z)
| DeviceGetPciInfo (device : nvmlDevice_t) (pci : ptr)
| DeviceGetCudaComputeCapability (device : nvmlDevice_t) (major minor : ptr)
| DeviceGetBrand (device : nvmlDevice_t) (type : ptr)
| DeviceGetMinorNumber (device : nvmlDevice_t) (minorNumber : ptr)
| DeviceGetMigCapability (device : nvmlDevice_t) (isMigCapable isMigGpu : ptr)
| DeviceGetMigMode (device : nvmlDevice_t) (currentMode pendingMode : ptr).

#[global] Instance call_eq_dec : EqDecision call.
Proof. solve_decision. Defined.

Definition code (m : M nvmlReturn_t) : M retval := r ← m; mret (RCode r).

Definition exec (w : world) (c : call) : M retval :=
  match c with
  | Init => code (nvmlInit_v2 w)
  | Shutdown => code (nvmlShutdown w)
  | ErrorString result => str ← nvmlErrorString w result; mret (RString str)
  | SystemGetDriverVersion version length =>
      code (nvmlSystemGetDriverVersion w version length)
  | SystemGetCudaDriverVersion p => code (nvmlSystemGetCudaDriverVersion w p)
  | DeviceGetCount p => code (nvmlDeviceGetCount_v2 w p)
  | DeviceGetHandleByIndex i p => code (nvmlDeviceGetHandleByIndex_v2 w i p)
  | DeviceGetName d p n => code (nvmlDeviceGetName w d p n)
  | DeviceGetUUID d p n => code (nvmlDeviceGetUUID w d p n)
  | DeviceGetPciInfo d p => code (nvmlDeviceGetPciInfo w d p)
  | DeviceGetCudaComputeCapability d p q =>
      code (nvmlDeviceGetCudaComputeCapability w d p q)
  | DeviceGetBrand d p => code (nvmlDeviceGetBrand w d p)
  | DeviceGetMinorNumber d p => code (nvmlDeviceGetMinorNumber w d p)
  | DeviceGetMigCapability d p q => code (nvmlDeviceGetMigCapability w d p q)
  | DeviceGetMigMode d p q => code (nvmlDeviceGetMigMode w d p q)
  end.

(** The query operations: every entry point but the two that drive the
    lifecycle and the translation of error codes. *)
Definition is_query (c : call) : bool :=
  match c with
  | Init | Shutdown | ErrorString _ => false
  | _ => true
  end.

(** The per-device queries the claims about handles name. *)
Definition is_device_query (c : call) : bool :=
  match c with
  | DeviceGetName _ _ _ | DeviceGetUUID _ _ _ | DeviceGetPciInfo _ _
  | DeviceGetMinorNumber _ _ | DeviceGetBrand _ _ => true
  | _ => false
  end.

(** The pair of output pointers of the entry points that test their output
    pointers against [NULL]. *)
Definition checked_outputs (c : call) : option (ptr * ptr) :=
  match c with
  | DeviceGetCudaComputeCapability _ p q
  | DeviceGetMigCapability _ p q
  | DeviceGetMigMode _ p q => Some (p, q)
  | _ => None
  end.


(** The string-output operations, called on the handle of record [i], and
    the string each one copies from. *)
Inductive string_output :=
| DriverVersion
| DeviceNameOf (i : Z)
| DeviceUUIDOf (i : Z).

Definition string_source (o : string_output) : string :=
  match o with
  | DriverVersion => FAKE_DRIVER_VERSION
  | DeviceNameOf i => name (fake_gpu i)
  | DeviceUUIDOf i => uuid (fake_gpu i)
  end.

Definition string_call (o : string_output) (buffer : ptr) (length : Z) : call :=
  match o with
  | DriverVersion => SystemGetDriverVersion buffer length
  | DeviceNameOf i => DeviceGetName (DevGpu (Z.to_nat i)) buffer length
  | DeviceUUIDOf i => DeviceGetUUID (DevGpu (Z.to_nat i)) buffer length
  end.

Definition string_record_ok (o : string_output) : Prop :=
  match o with
  | DriverVersion => True
  | DeviceNameOf i | DeviceUUIDOf i => 0 ≤ i < FAKE_GPU_COUNT
  end.

(** The states a process can be in: the library is loaded, entry points are
    called and return, and between calls the caller does what it likes with
    its own memory. *)
Inductive reachable : state → Prop :=
| reachable_load h : reachable (initial_state h)
| reachable_call w c s r s' :
    reachable s → exec w c s = inr (r, s') → reachable s'
| reachable_caller s h : reachable s → reachable (set_heap h s).

(** The initialization flag, as the [if]s read it. *)
Definition initialized (s : state) : bool := negb (g_initialized s =? 0).

(** Agreement of two states on everything but the trace on standard error. *)
Definition same_data (s1 s2 : state) : Prop :=
  g_fake_gpus s1 = g_fake_gpus s2 ∧ g_initialized s1 = g_initialized s2
  ∧ heap s1 = heap s2.

(** Agreement of two results of one entry point on what the caller can
    observe: the fault, or the value returned and the data. *)
Definition same_result {A} (o1 o2 : fault + A * state) : Prop :=
  match o1, o2 with
  | inl e1, inl e2 => e1 = e2
  | inr (a1, s1), inr (a2, s2) => a1 = a2 ∧ same_data s1 s2
  | _, _ => False
  end.

(** The registry as [nvmlInit_v2] leaves it. *)
Definition populated (gpus : list fakeGpu_t) : Prop :=
  gpus = fake_gpu <$> seqZ 0 FAKE_GPU_COUNT.

(** A [char] buffer is null-terminated within its first [n] bytes. *)
Definition terminated_within (n : nat) (bs : list ascii) : Prop :=
  ∃ i, (i < n)%nat ∧ bs !! i = Some NUL.

(** State after one [LOG]. *)
Definition logged (w : world) (func_name msg : string) (s : state) : state :=
  match getenv w "FAKE_NVML_LOG" with
  | Some _ =>
      set_stderr (stderr s ++
        [ {| log_time := time w; log_pid := getpid w;
             log_func := func_name; log_msg := msg |} ]) s
  | None => s
  end.

(** A computation that returns leaves the library's static data alone. *)
Definition keeps_static {A} (m : M A) : Prop :=
  ∀ s a s', m s = inr (a, s') →
    g_fake_gpus s' = g_fake_gpus s ∧ g_initialized s' = g_initialized s.

(** Two computations that cannot be told apart by their results when they
    start from states with the same data. *)
Definition agree {A} (m1 m2 : M A) : Prop :=
  ∀ s1 s2, same_data s1 s2 → same_result (m1 s1) (m2 s2).

(** The invariant of the static data: the array has its declared size, the
    flag is 0 or 1, and while the flag is set the registry is populated. *)
Definition registry_ok (s : state) : Prop :=
  length (g_fake_gpus s) = Z.to_nat FAKE_GPU_COUNT
  ∧ (g_initialized s = 0 ∨ (g_initialized s = 1 ∧ populated (g_fake_gpus s))).

(** ** A sample process *)

(** An environment without [FAKE_NVML_LOG], and one with it. *)
Definition quiet : world :=
  {| getenv := λ _, None; time := 1700000000; getpid := 4242 |}.
Definition tracing : world :=
  {| getenv := λ k, if String.eqb k "FAKE_NVML_LOG" then Some "1"%string else None;
     time := 1700000000; getpid := 4242 |}.

(** A caller with a 4-byte buffer, a 64-byte buffer, two 32-bit cells, a
    handle cell and a PCI record. *)
Definition sample_heap : gmap nat object :=
  <[0%nat := OChars (replicate 4 "X"%char)]>
    (<[1%nat := OChars (replicate 64 "X"%char)]>
       (<[2%nat := OWord 77]>
          (<[3%nat := OWord 88]>
             (<[4%nat := ODevice DevNull]>
                (<[5%nat := OPciInfo zero_pci]> ∅))))).

Definition loaded : state := initial_state sample_heap.

(** The state of the process once it has called [nvmlInit_v2]. *)
Definition session : state :=
  match nvmlInit_v2 quiet loaded with
  | inr (_, s) => s
  | inl _ => loaded
  end.

(** The state a call returns in (the state it was made in, had it
    faulted). *)
Definition after (w : world) (c : call) (s : state) : state :=
  match exec w c s with
  | inr (_, s') => s'
  | inl _ => s
  end.

(** The process asks for the handle of device 2, shuts the library down
    and initializes it again. *)
Definition issued : state := after quiet (DeviceGetHandleByIndex 2 (Loc 4)) session.
Definition closed : state := after quiet Shutdown issued.
Definition second_session : state := after tracing Init closed.

(** ** Footprints and traces *)

(** The pointer arguments of a call. *)
Definition pointer_args (c : call) : list ptr :=
  match c with
  | Init | Shutdown | ErrorString _ => []
  | SystemGetDriverVersion p _ | SystemGetCudaDriverVersion p
  | DeviceGetCount p | DeviceGetHandleByIndex _ p
  | DeviceGetName _ p _ | DeviceGetUUID _ p _ | DeviceGetPciInfo _ p
  | DeviceGetBrand _ p | DeviceGetMinorNumber _ p => [p]
  | DeviceGetCudaComputeCapability _ p q
  | DeviceGetMigCapability _ p q
  | DeviceGetMigMode _ p q => [p; q]
  end.

(** Two objects of one type and, for [char] arrays, one size. *)
Definition same_kind (o1 o2 : object) : Prop :=
  match o1, o2 with
  | OWord _, OWord _ | ODevice _, ODevice _ | OPciInfo _, OPciInfo _
  | OGpu _, OGpu _ => True
  | OChars bs1, OChars bs2 => length bs1 = length bs2
  | _, _ => False
  end.

(** From [s] to [s'] the caller's memory changed at most behind the
    pointers [ps], and no object appeared, vanished or changed its type or
    size. *)
Definition heap_frame (ps : list ptr) (s s' : state) : Prop :=
  (∀ b, Loc b ∉ ps → heap s' !! b = heap s !! b)
  ∧ (∀ b, match heap s !! b, heap s' !! b with
          | Some o, Some o' => same_kind o o'
          | None, None => True
          | _, _ => False
          end).

Definition writes_within {A} (ps : list ptr) (m : M A) : Prop :=
  ∀ s a s', m s = inr (a, s') → heap_frame ps s s'.

(** A computation that returns has added nothing to standard error. *)
Definition keeps_stderr {A} (m : M A) : Prop :=
  ∀ s a s', m s = inr (a, s') → stderr s' = stderr s.

(** [__func__] in the entry point a call enters (an alias enters the
    versioned function). *)
Definition entry_name (c : call) : string :=
  match c with
  | Init => "nvmlInit_v2"
  | Shutdown => "nvmlShutdown"
  | ErrorString _ => "nvmlErrorString"
  | SystemGetDriverVersion _ _ => "nvmlSystemGetDriverVersion"
  | SystemGetCudaDriverVersion _ => "nvmlSystemGetCudaDriverVersion"
  | DeviceGetCount _ => "nvmlDeviceGetCount_v2"
  | DeviceGetHandleByIndex _ _ => "nvmlDeviceGetHandleByIndex_v2"
  | DeviceGetName _ _ _ => "nvmlDeviceGetName"
  | DeviceGetUUID _ _ _ => "nvmlDeviceGetUUID"
  | DeviceGetPciInfo _ _ => "nvmlDeviceGetPciInfo"
  | DeviceGetCudaComputeCapability _ _ _ => "nvmlDeviceGetCudaComputeCapability"
  | DeviceGetBrand _ _ => "nvmlDeviceGetBrand"
  | DeviceGetMinorNumber _ _ => "nvmlDeviceGetMinorNumber"
  | DeviceGetMigCapability _ _ _ => "nvmlDeviceGetMigCapability"
  | DeviceGetMigMode _ _ _ => "nvmlDeviceGetMigMode"
  end.

(** The line one [LOG] prints. *)
Definition line (w : world) (func_name msg : string) : logline :=
  {| log_time := time w; log_pid := getpid w;
     log_func := func_name; log_msg := msg |}.

(** Whether [getenv("FAKE_NVML_LOG")] is non-null. *)
Definition traced (w : world) : bool :=
  match getenv w "FAKE_NVML_LOG" with Some _ => true | None => false end.

(** The lines a call that returns [r] leaves on standard error. *)
Definition trace_of (w : world) (c : call) (r : retval) : list logline :=
  if traced w then
    match c, r with
    | ErrorString result, _ =>
        [ line w "nvmlErrorString" "enter";
          line w "nvmlErrorString"
            ("Translating error code: " +:+ string_of_int result) ]
    | _, RCode NVML_SUCCESS =>
        [ line w (entry_name c) "enter"; line w (entry_name c) "exit" ]
    | _, _ => [ line w (entry_name c) "enter" ]
    end
  else [].

(** A sequence of calls, each in the environment of its moment, stopped by
    the first fault. *)
Fixpoint run (calls : list (world * call)) : M (list retval) :=
  match calls with
  | [] => mret []
  | (w, c) :: rest => r ← exec w c; rs ← run rest; mret (r :: rs)
  end.

(** What Initialize and Shutdown make of the flag. *)
Definition flag_after (b : bool) (c : call) : bool :=
  match c with
  | Init => true
  | Shutdown => false
  | _ => b
  end.

(** A sequence of calls of the sample process, and the state it ends in. *)
Definition sample_calls : list (world * call) :=
  [ (quiet, Init); (tracing, DeviceGetCount (Loc 2)); (quiet, Shutdown);
    (quiet, Shutdown); (tracing, ErrorString 1) ].
Definition sample_end : state :=
  after tracing (ErrorString 1)
    (after quiet Shutdown
       (after quiet Shutdown
          (after tracing (DeviceGetCount (Loc 2)) (after quiet Init loaded)))).

(** * fake_nvidia_driver.c: the fake kernel module *)

(** Kernel error numbers. *)
Definition EFAULT : Z := 14.
Definition ENOMEM : Z := 12.
Definition EINVAL : Z := 22.

(** The line feed. *)
Definition LF : string := String "010"%char "".

(** Fake version information. *)
Definition g_fake_version_string : string :=
  "Driver Version: 535.104.05" +:+ LF.

(** The array [g_fake_version_string[]]: the bytes of the literal and its
    terminator.  [sizeof] counts both. *)
Definition g_fake_version_bytes : list ascii :=
  list_ascii_of_string g_fake_version_string ++ [NUL].
Definition sizeof_g_fake_version_string : Z :=
  Z.of_nat (length g_fake_version_bytes).

(** The kernel's [copy_to_user(to, from, n)], for a user buffer that is
    writable for [length to] bytes: the bytes that fit are copied, and the
    number of bytes that could not be copied is returned. *)
Definition copy_to_user (to from : list ascii) (n : nat) : nat * list ascii :=
  let k := (n `min` length to)%nat in
  ((n - k)%nat, take k from ++ drop k to).

(** The kernel's [simple_read_from_buffer(to, count, ppos, from, available)]:
    the return value, the user buffer and [*ppos] afterwards. *)
Definition simple_read_from_buffer (to : list ascii) (count ppos : Z)
    (from : list ascii) (available : Z) : Z * list ascii * Z :=
  let pos := ppos in
  if pos <? 0 then (- EINVAL, to, ppos)
  else if (pos >=? available) || (count =? 0) then (0, to, ppos)
  else
    let count := if count >? available - pos then available - pos else count in
    let '(ret, to') :=
      copy_to_user to (drop (Z.to_nat pos) from) (Z.to_nat count) in
    if Z.of_nat ret =? count then (- EFAULT, to, ppos)
    else
      let count := count - Z.of_nat ret in
      (count, to', pos + count).

(** Called when /proc/driver/nvidia/version is read. *)
Definition proc_version_read (usr_buf : list ascii) (count ppos : Z)
  : Z * list ascii * Z :=
  simple_read_from_buffer usr_buf count ppos
    g_fake_version_bytes sizeof_g_fake_version_string.

(** A reader of the file: [read] with a buffer and a chunk size, from
    offset [pos] on, until a call returns nothing; the bytes it was given. *)
Fixpoint read_all (fuel : nat) (usr_buf : list ascii) (count pos : Z)
  : option (list ascii) :=
  match fuel with
  | O => None
  | S fuel' =>
      let '(ret, usr_buf', pos') := proc_version_read usr_buf count pos in
      if ret <=? 0 then Some []
      else (λ rest, take (Z.to_nat ret) usr_buf' ++ rest)
             <$> read_all fuel' usr_buf' count pos'
  end.

(** ** The module's entries under /proc *)

Inductive proc_ops := g_version_fops.

(** An entry of the /proc tree: a directory, or a file with its mode and
    operations. *)
Inductive proc_entry :=
| PDir
| PFile (mode : Z) (ops : proc_ops).

Inductive loglevel := KERN_INFO | KERN_ERR.

(** The kernel as the module sees it: the /proc tree, keyed by the path
    below /proc; the module's pointer to the directory it created ([None] is
    [NULL]); the kernel log. *)
Record kernel := {
  proc : gmap string proc_entry;
  g_proc_nvidia_dir : option string;
  dmesg : list (loglevel * string)
}.

Definition printk (level : loglevel) (msg : string) (k : kernel) : kernel :=
  {| proc := proc k; g_proc_nvidia_dir := g_proc_nvidia_dir k;
     dmesg := dmesg k ++ [(level, msg)] |}.

(** The path of [name] under [parent] ([None], the null parent, is /proc
    itself). *)
Definition proc_path (name : string) (parent : option string) : string :=
  match parent with
  | None => name
  | Some dir => dir +:+ "/" +:+ name
  end.

(** Registration of an entry.  The kernel refuses when it cannot allocate
    or resolve the path ([refused], its own business) and when the name is
    taken; a refusal is a null result and an unchanged tree. *)
Definition proc_register (refused : string → bool) (path : string)
    (e : proc_entry) (t : gmap string proc_entry)
  : option string * gmap string proc_entry :=
  if refused path then (None, t)
  else match t !! path with
       | Some _ => (None, t)
       | None => (Some path, <[path := e]> t)
       end.

Definition proc_mkdir (refused : string → bool) (name : string)
    (parent : option string) (t : gmap string proc_entry) :=
  proc_register refused (proc_path name parent) PDir t.

Definition proc_create (refused : string → bool) (name : string) (mode : Z)
    (parent : option string) (ops : proc_ops) (t : gmap string proc_entry) :=
  proc_register refused (proc_path name parent) (PFile mode ops) t.

(** Whether [path] is [dir] or lies below it. *)
Definition below (dir path : string) : bool :=
  String.eqb path dir || String.prefix (dir +:+ "/") path.

(** [proc_remove] is recursive. *)
Definition proc_remove (dir : string) (t : gmap string proc_entry)
  : gmap string proc_entry :=
  filter (λ kv, below dir kv.1 = false) t.

(** The mode [0444]. *)
Definition mode_0444 : Z := 4 * 8 ^ 2 + 4 * 8 + 4.

(** Module initialization function: the value returned and the kernel
    afterwards. *)
Definition fake_nvidia_init (refused : string → bool) (k : kernel) : Z * kernel :=
  let k := printk KERN_INFO
    ("FAKE_NVIDIA: Loading Fake NVIDIA Driver Module (v6 - Correct GPU Path)..." +:+ LF) k in
  let '(dir, t1) := proc_mkdir refused "driver/nvidia" None (proc k) in
  let k := {| proc := t1; g_proc_nvidia_dir := dir; dmesg := dmesg k |} in
  match dir with
  | None =>
      (- ENOMEM,
       printk KERN_ERR
         ("FAKE_NVIDIA: Failed to create directory /proc/driver/nvidia." +:+ LF) k)
  | Some _ =>
      let '(_, t2) := proc_create refused "version" mode_0444 dir g_version_fops t1 in
      let '(gpus_dir, t3) := proc_mkdir refused "gpus" dir t2 in
      let t4 :=
        match gpus_dir with
        | Some _ => (proc_mkdir refused "0000:00:00.0" gpus_dir t3).2
        | None => t3
        end in
      (0,
       printk KERN_INFO
         ("FAKE_NVIDIA: Module loaded and /proc/driver/nvidia structure created successfully." +:+ LF)
         {| proc := t4; g_proc_nvidia_dir := dir; dmesg := dmesg k |})
  end.

(** Module exit function. *)
Definition fake_nvidia_exit (k : kernel) : kernel :=
  let k := printk KERN_INFO
    ("FAKE_NVIDIA: Unloading Fake NVIDIA Driver Module (v6)..." +:+ LF) k in
  let k :=
    match g_proc_nvidia_dir k with
    | Some dir =>
        {| proc := proc_remove dir (proc k);
           g_proc_nvidia_dir := g_proc_nvidia_dir k; dmesg := dmesg k |}
    | None => k
    end in
  printk KERN_INFO ("FAKE_NVIDIA: Cleanup complete." +:+ LF) k.

(** A kernel with /proc/driver and no NVIDIA entries, one that refuses
    nothing, and one that refuses the directory of the GPUs. *)
Definition sample_kernel : kernel :=
  {| proc := <["driver" := PDir]> ∅; g_proc_nvidia_dir := None; dmesg := [] |}.
Definition willing : string → bool := λ _, false.
Definition no_gpus : string → bool := λ path, String.eqb path "driver/nvidia/gpus".

(** ** Handles and the records behind them *)

(** The record that is read through a handle, if any memory is there to be
    read: an element of the registry, or an object of the caller's. *)
Definition handle_record (s : state) (d : nvmlDevice_t) : option fakeGpu_t :=
  match d with
  | DevNull => None
  | DevGpu i => g_fake_gpus s !! i
  | DevObject b =>
      match heap s !! b with
      | Some (OGpu gpu) => Some gpu
      | _ => None
      end
  | DevForeign _ => None
  end.

(** The sample process forges a handle: it lays out a record of its own in
    its memory and passes the address of that. *)
Definition forged_gpu : fakeGpu_t :=
  {| index := 41; name := "FORGED"; uuid := "GPU-X"; pci := zero_pci;
     handle := DevNull |}.
Definition forged_session : state :=
  set_heap (<[6%nat := OGpu forged_gpu]> (heap second_session)) second_session.

(** * Properties *)

(** ** Running the monad *)

Lemma bind_run {A B} (m : M A) (f : A → M B) s :
  (m ≫= f) s = match m s with inl e => inl e | inr (a, s') => f a s' end.
Proof. reflexivity. Qed.

Lemma LOG_run w f msg s : LOG w f msg s = inr ((), logged w f msg s).
Proof. unfold LOG, logged. destruct (getenv w _); reflexivity. Qed.

Lemma logged_same_data w f msg s : same_data (logged w f msg s) s.
Proof. unfold logged, same_data. destruct (getenv w _); simpl; auto. Qed.

Lemma logged_heap w f msg s : heap (logged w f msg s) = heap s.
Proof. apply logged_same_data. Qed.
Lemma logged_initialized w f msg s :
  g_initialized (logged w f msg s) = g_initialized s.
Proof. apply logged_same_data. Qed.
Lemma logged_fake_gpus w f msg s :
  g_fake_gpus (logged w f msg s) = g_fake_gpus s.
Proof. apply logged_same_data. Qed.

#[global] Instance same_data_equiv : Equivalence same_data.
Proof.
  split.
  - intros s. repeat split.
  - intros s1 s2 (? & ? & ?). repeat split; congruence.
  - intros s1 s2 s3 (? & ? & ?) (? & ? & ?). repeat split; congruence.
Qed.

(** Unfolds an entry point down to matches on the state. *)
Ltac unfold_entry :=
  unfold exec, code, nvmlInit, nvmlDeviceGetCount, nvmlDeviceGetHandleByIndex,
    nvmlInit_v2, nvmlShutdown, nvmlErrorString,
    nvmlSystemGetDriverVersion, nvmlSystemGetCudaDriverVersion,
    nvmlDeviceGetCount_v2, nvmlDeviceGetHandleByIndex_v2, nvmlDeviceGetName,
    nvmlDeviceGetUUID, nvmlDeviceGetPciInfo,
    nvmlDeviceGetCudaComputeCapability, nvmlDeviceGetBrand,
    nvmlDeviceGetMinorNumber, nvmlDeviceGetMigCapability, nvmlDeviceGetMigMode;
  repeat (rewrite ?bind_run, ?LOG_run; unfold gets, modify, mret, M_ret; cbn beta iota);
  rewrite ?logged_initialized.

(** ** The lifecycle *)

Lemma init_run w s :
  nvmlInit_v2 w s =
  if g_initialized s =? 0
  then inr (NVML_SUCCESS,
            logged w "nvmlInit_v2" "exit"
              (set_initialized 1
                 (set_fake_gpus (populate (g_fake_gpus s))
                    (logged w "nvmlInit_v2" "enter" s))))
  else inr (NVML_ERROR_ALREADY_INITIALIZED, logged w "nvmlInit_v2" "enter" s).
Proof.
  unfold_entry. destruct (g_initialized s =? 0); unfold_entry; try reflexivity.
  by rewrite logged_fake_gpus.
Qed.

Lemma shutdown_run w s :
  nvmlShutdown w s =
  if g_initialized s =? 0
  then inr (NVML_ERROR_UNINITIALIZED, logged w "nvmlShutdown" "enter" s)
  else inr (NVML_SUCCESS,
            logged w "nvmlShutdown" "exit"
              (set_initialized 0 (logged w "nvmlShutdown" "enter" s))).
Proof.
  unfold_entry. destruct (g_initialized s =? 0); unfold_entry; reflexivity.
Qed.

Lemma initialized_false s : initialized s = false ↔ g_initialized s = 0.
Proof. unfold initialized. destruct (Z.eqb_spec (g_initialized s) 0); naive_solver. Qed.

Lemma initialized_true s : initialized s = true ↔ g_initialized s ≠ 0.
Proof. unfold initialized. destruct (Z.eqb_spec (g_initialized s) 0); naive_solver. Qed.

Lemma initialized_same_data s1 s2 :
  same_data s1 s2 → initialized s1 = initialized s2.
Proof. intros (_ & E & _). unfold initialized. by rewrite E. Qed.

Lemma initialized_logged w f msg s : initialized (logged w f msg s) = initialized s.
Proof. apply initialized_same_data, logged_same_data. Qed.

(** C4. The flag starts false.  From any state, the first of two
    consecutive calls of Initialize succeeds exactly when the flag is false
    (and fails with AlreadyInitialized exactly when it is true) and the
    second returns AlreadyInitialized; the first of two consecutive calls of
    Shutdown succeeds exactly when the flag is true (and fails with
    Uninitialized exactly when it is false) and the second returns
    Uninitialized.  A successful Initialize sets the flag, a successful
    Shutdown clears it, and a failed call leaves the flag, the registry and
    the caller's memory as they were. *)
Theorem lifecycle_twice :
  (∀ h, initialized (initial_state h) = false) ∧
  ∀ w1 w2 s,
    (∃ s1 s2,
        nvmlInit_v2 w1 s =
          inr (if initialized s then NVML_ERROR_ALREADY_INITIALIZED
               else NVML_SUCCESS, s1)
        ∧ nvmlInit_v2 w2 s1 = inr (NVML_ERROR_ALREADY_INITIALIZED, s2)
        ∧ (if initialized s then same_data s1 s else initialized s1 = true)
        ∧ same_data s2 s1)
    ∧ (∃ s1 s2,
        nvmlShutdown w1 s =
          inr (if initialized s then NVML_SUCCESS
               else NVML_ERROR_UNINITIALIZED, s1)
        ∧ nvmlShutdown w2 s1 = inr (NVML_ERROR_UNINITIALIZED, s2)
        ∧ (if initialized s then initialized s1 = false else same_data s1 s)
        ∧ same_data s2 s1).
Proof.
  split; [reflexivity|]. intros w1 w2 s. split.
  - rewrite init_run. unfold initialized.
    destruct (g_initialized s =? 0) eqn:E; simpl;
      eexists _, _; (split; [reflexivity|]); rewrite init_run;
      rewrite logged_initialized; simpl; rewrite ?logged_initialized, ?E;
      repeat split; try apply logged_same_data; try apply logged_heap;
      try apply logged_fake_gpus; try apply logged_initialized.
  - rewrite shutdown_run. unfold initialized.
    destruct (g_initialized s =? 0) eqn:E; simpl;
      eexists _, _; (split; [reflexivity|]); rewrite shutdown_run;
      rewrite logged_initialized; simpl; rewrite ?logged_initialized, ?E;
      repeat split; try apply logged_same_data; try apply logged_heap;
      try apply logged_fake_gpus; try apply logged_initialized.
Qed.

(** ** Queries on an uninitialized library *)

Lemma query_uninitialized w c s :
  is_query c = true → g_initialized s = 0 →
  ∃ f, exec w c s = inr (RCode NVML_ERROR_UNINITIALIZED, logged w f "enter" s).
Proof.
  intros Hq Hg. destruct c; try discriminate Hq;
    eexists; unfold_entry; rewrite Hg; reflexivity.
Qed.

(** C7. Whenever the initialization flag is false, which it is in the
    state the library is loaded in and in the state any call of Shutdown
    returns in, every query operation (every entry point but Initialize,
    Shutdown and the translation of error codes) returns Uninitialized
    whatever its arguments, and leaves the caller's memory, the registry and
    the flag as they were: nothing is written through an output pointer. *)
Theorem uninitialized_queries :
  (∀ h, initialized (initial_state h) = false)
  ∧ (∀ w s r s', nvmlShutdown w s = inr (r, s') → initialized s' = false)
  ∧ (∀ w c s,
       is_query c = true → initialized s = false →
       ∃ s', exec w c s = inr (RCode NVML_ERROR_UNINITIALIZED, s')
             ∧ heap s' = heap s ∧ same_data s' s).
Proof.
  split; [reflexivity|]. split.
  - intros w s r s'. rewrite shutdown_run. unfold initialized.
    destruct (g_initialized s =? 0) eqn:E; intros [= <- <-];
      rewrite logged_initialized; simpl; rewrite ?logged_initialized, ?E; done.
  - intros w c s Hq Hg. apply initialized_false in Hg.
    destruct (query_uninitialized w c s Hq Hg) as [f ->].
    eexists; split; [reflexivity|]. split.
    + apply logged_heap.
    + apply logged_same_data.
Qed.

(** ** What an entry point leaves alone *)

Section KeepsStatic.
Context {A B : Type}.

Lemma keeps_static_ret (a : A) : keeps_static (mret a).
Proof. intros s a' s' [= <- <-]. done. Qed.

Lemma keeps_static_bind (m : M A) (f : A → M B) :
  keeps_static m → (∀ a, keeps_static (f a)) → keeps_static (m ≫= f).
Proof.
  intros Hm Hf s b s'. rewrite bind_run.
  destruct (m s) as [e|[a s1]] eqn:E; [done|].
  intros H. destruct (Hm _ _ _ E) as [<- <-]. exact (Hf a _ _ _ H).
Qed.

Lemma keeps_static_gets (f : state → A) : keeps_static (gets f).
Proof. intros s a' s' [= <- <-]. done. Qed.

Lemma keeps_static_raise e : keeps_static (raise (A:=A) e).
Proof. intros s a' s'. discriminate. Qed.
End KeepsStatic.

Lemma keeps_static_LOG w f msg : keeps_static (LOG w f msg).
Proof.
  intros s a s'. rewrite LOG_run. intros [= <- <-].
  split; [apply logged_fake_gpus | apply logged_initialized].
Qed.

Lemma keeps_static_store_word p v : keeps_static (store_word p v).
Proof.
  intros s a s'. destruct p as [|b]; [done|]. simpl.
  destruct (heap s !! b) as [[]|]; try done. by intros [= <- <-].
Qed.

Lemma keeps_static_store_device p h : keeps_static (store_device p h).
Proof.
  intros s a s'. destruct p as [|b]; [done|]. simpl.
  destruct (heap s !! b) as [[]|]; try done. by intros [= <- <-].
Qed.

Lemma keeps_static_memcpy_pci p v : keeps_static (memcpy_pci p v).
Proof.
  intros s a s'. destruct p as [|b]; [done|]. simpl.
  destruct (heap s !! b) as [[]|]; try done. by intros [= <- <-].
Qed.

Lemma keeps_static_strncpy p src n : keeps_static (strncpy p src n).
Proof.
  intros s a s'. destruct p as [|b]; [done|]. simpl.
  destruct (heap s !! b) as [[]|]; try done.
  destruct (_ <=? _)%nat; [|done]. by intros [= <- <-].
Qed.

Lemma keeps_static_array_get i : keeps_static (array_get i).
Proof.
  intros s a s'. unfold array_get.
  destruct (g_fake_gpus s !! i); [|done]. by intros [= <- <-].
Qed.

Lemma keeps_static_object_get b : keeps_static (object_get b).
Proof.
  intros s a s'. unfold object_get.
  destruct (heap s !! b) as [[]|]; try done. by intros [= <- <-].
Qed.

Lemma keeps_static_deref_gpu d : keeps_static (deref_gpu d).
Proof.
  destruct d; simpl;
    auto using keeps_static_array_get, keeps_static_object_get, keeps_static_raise.
Qed.

Create HintDb keeps_static.
#[global] Hint Resolve keeps_static_ret keeps_static_gets keeps_static_raise
  keeps_static_LOG keeps_static_store_word keeps_static_store_device
  keeps_static_memcpy_pci keeps_static_strncpy keeps_static_array_get
  keeps_static_deref_gpu : keeps_static.

Ltac keeps_static_tac :=
  repeat first
    [ apply keeps_static_bind; [|intros ?]
    | match goal with |- keeps_static (if ?b then _ else _) => destruct b end
    | solve [auto with keeps_static] ].

(** Only Initialize and Shutdown touch the registry and the flag. *)
Lemma exec_keeps_static w c :
  c ≠ Init → c ≠ Shutdown → keeps_static (exec w c).
Proof.
  intros H1 H2.
  destruct c; try done; unfold exec, code, nvmlErrorString,
    nvmlSystemGetDriverVersion, nvmlSystemGetCudaDriverVersion,
    nvmlDeviceGetCount_v2, nvmlDeviceGetHandleByIndex_v2, nvmlDeviceGetName,
    nvmlDeviceGetUUID, nvmlDeviceGetPciInfo,
    nvmlDeviceGetCudaComputeCapability, nvmlDeviceGetBrand,
    nvmlDeviceGetMinorNumber, nvmlDeviceGetMigCapability, nvmlDeviceGetMigMode;
    keeps_static_tac.
Qed.

(** ** The registry *)

Lemma populate_populated gpus :
  length gpus = Z.to_nat FAKE_GPU_COUNT → populated (populate gpus).
Proof.
  intros Hlen. destruct gpus as [|g0 [|g1 [|g2 [|g3 [|]]]]]; try discriminate Hlen.
  reflexivity.
Qed.

Lemma populated_length gpus :
  populated gpus → length gpus = Z.to_nat FAKE_GPU_COUNT.
Proof. intros ->. reflexivity. Qed.

Lemma populated_lookup gpus i :
  populated gpus → 0 ≤ i < FAKE_GPU_COUNT →
  gpus !! Z.to_nat i = Some (fake_gpu i).
Proof.
  intros -> Hi. unfold FAKE_GPU_COUNT in Hi.
  assert (i = 0 ∨ i = 1 ∨ i = 2 ∨ i = 3) as [->|[->|[->| ->]]] by lia;
    reflexivity.
Qed.

Lemma reachable_registry_ok s : reachable s → registry_ok s.
Proof.
  induction 1 as [h|w c s r s' Hs IH Hexec|s h Hs IH].
  - split; [reflexivity|by left].
  - destruct IH as [Hlen Hflag].
    destruct (decide (c = Init)) as [->|Hinit];
      [|destruct (decide (c = Shutdown)) as [->|Hshut]].
    + revert Hexec. unfold exec, code. rewrite bind_run, init_run.
      destruct (Z.eqb_spec (g_initialized s) 0) as [E|E]; intros [= <- <-].
      * unfold registry_ok. rewrite ?logged_fake_gpus, ?logged_initialized; simpl;
          rewrite ?logged_fake_gpus, ?logged_initialized. split.
        -- by apply populated_length, populate_populated.
        -- right. split; [done|]. by apply populate_populated.
      * unfold registry_ok. rewrite logged_fake_gpus, logged_initialized.
        split; [done|]. by right; destruct Hflag.
    + revert Hexec. unfold exec, code. rewrite bind_run, shutdown_run.
      destruct (Z.eqb_spec (g_initialized s) 0) as [E|E]; intros [= <- <-].
      * unfold registry_ok. rewrite logged_fake_gpus, logged_initialized.
        split; [done|]. by left.
      * unfold registry_ok. rewrite ?logged_fake_gpus, ?logged_initialized; simpl;
          rewrite ?logged_fake_gpus, ?logged_initialized. split; [done|]. by left.
    + destruct (exec_keeps_static w c Hinit Hshut _ _ _ Hexec) as [E1 E2].
      unfold registry_ok. by rewrite E1, E2.
  - exact IH.
Qed.

(** While the flag is set, slot [i] of the registry holds [fake_gpu i]. *)
Lemma reachable_lookup s i :
  reachable s → initialized s = true → 0 ≤ i < FAKE_GPU_COUNT →
  g_fake_gpus s !! Z.to_nat i = Some (fake_gpu i).
Proof.
  intros Hs Hflag Hi. apply initialized_true in Hflag.
  destruct (reachable_registry_ok s Hs) as [_ [E|[_ Hpop]]]; [done|].
  by apply populated_lookup.
Qed.

(** ** Stores through valid pointers *)

Lemma store_word_Loc b v v0 s :
  heap s !! b = Some (OWord v0) →
  store_word (Loc b) v s = inr ((), set_heap (<[b := OWord v]> (heap s)) s).
Proof. intros H. simpl. by rewrite H. Qed.

Lemma store_device_Loc b h h0 s :
  heap s !! b = Some (ODevice h0) →
  store_device (Loc b) h s = inr ((), set_heap (<[b := ODevice h]> (heap s)) s).
Proof. intros H. simpl. by rewrite H. Qed.

Lemma memcpy_pci_Loc b v v0 s :
  heap s !! b = Some (OPciInfo v0) →
  memcpy_pci (Loc b) v s = inr ((), set_heap (<[b := OPciInfo v]> (heap s)) s).
Proof. intros H. simpl. by rewrite H. Qed.

Lemma strncpy_Loc b src n old s :
  heap s !! b = Some (OChars old) → (Z.to_nat n ≤ length old)%nat →
  strncpy (Loc b) src n s =
    inr ((), set_heap (<[b := OChars (strncpy_bytes src (Z.to_nat n)
                                       ++ drop (Z.to_nat n) old)]> (heap s)) s).
Proof.
  intros H Hn. simpl. rewrite H.
  by destruct (Nat.leb_spec (Z.to_nat n) (length old)); [|lia].
Qed.

Lemma flag_test s : initialized s = true → (g_initialized s =? 0) = false.
Proof. unfold initialized. by destruct (g_initialized s =? 0). Qed.

(** ** Handles *)

Lemma handle_by_index_run w s i b h0 :
  reachable s → initialized s = true → 0 ≤ i < FAKE_GPU_COUNT →
  heap s !! b = Some (ODevice h0) →
  nvmlDeviceGetHandleByIndex_v2 w i (Loc b) s =
    inr (NVML_SUCCESS,
         logged w "nvmlDeviceGetHandleByIndex_v2" "exit"
           (set_heap (<[b := ODevice (DevGpu (Z.to_nat i))]> (heap s))
              (logged w "nvmlDeviceGetHandleByIndex_v2" "enter" s))).
Proof.
  intros Hs Hflag Hi Hb. unfold_entry. rewrite (flag_test _ Hflag).
  replace (i >=? uint FAKE_GPU_COUNT) with false
    by (symmetry; rewrite Z.geb_leb; apply Z.leb_gt; exact (proj2 Hi)).
  unfold_entry. unfold array_get. rewrite logged_fake_gpus.
  rewrite (reachable_lookup s i Hs Hflag Hi).
  rewrite bind_run.
  erewrite store_device_Loc by (rewrite logged_heap; exact Hb).
  unfold_entry. by rewrite logged_heap.
Qed.

(** C5. GetHandleByIndex returns Uninitialized when the flag is false.
    When the flag is true it returns InvalidArgument for the index equal to
    the device count and for every larger [unsigned int], among them the
    conversions of the negative [int]s, and writes nothing; and for every
    index below the device count it succeeds and stores, in the caller's
    handle cell, the handle field of the record at that index, which is the
    address of that record. *)
Theorem handle_by_index :
  (∀ w s i p,
     initialized s = false →
     ∃ s', nvmlDeviceGetHandleByIndex_v2 w i p s
             = inr (NVML_ERROR_UNINITIALIZED, s') ∧ same_data s' s)
  ∧ (∀ w s i p,
       initialized s = true → FAKE_GPU_COUNT ≤ i →
       ∃ s', nvmlDeviceGetHandleByIndex_v2 w i p s
               = inr (NVML_ERROR_INVALID_ARGUMENT, s') ∧ same_data s' s)
  ∧ (∀ w s n p,
       initialized s = true → - 2 ^ 31 ≤ n < 0 →
       ∃ s', nvmlDeviceGetHandleByIndex_v2 w (uint n) p s
               = inr (NVML_ERROR_INVALID_ARGUMENT, s') ∧ same_data s' s)
  ∧ (∀ w s i b h0,
       reachable s → initialized s = true → 0 ≤ i < FAKE_GPU_COUNT →
       heap s !! b = Some (ODevice h0) →
       ∃ gpu s',
         g_fake_gpus s !! Z.to_nat i = Some gpu
         ∧ handle gpu = DevGpu (Z.to_nat i)
         ∧ nvmlDeviceGetHandleByIndex_v2 w i (Loc b) s = inr (NVML_SUCCESS, s')
         ∧ heap s' = <[b := ODevice (handle gpu)]> (heap s)
         ∧ g_fake_gpus s' = g_fake_gpus s
         ∧ g_initialized s' = g_initialized s).
Proof.
  assert (Hbig : ∀ w s i p,
     initialized s = true → FAKE_GPU_COUNT ≤ i →
     ∃ s', nvmlDeviceGetHandleByIndex_v2 w i p s
             = inr (NVML_ERROR_INVALID_ARGUMENT, s') ∧ same_data s' s).
  { intros w s i p Hflag Hi. unfold_entry. rewrite (flag_test _ Hflag).
    replace (i >=? uint FAKE_GPU_COUNT) with true
      by (symmetry; rewrite Z.geb_leb; apply Z.leb_le; exact Hi).
    eexists; split; [reflexivity|apply logged_same_data]. }
  repeat split.
  - intros w s i p Hflag. apply initialized_false in Hflag.
    unfold_entry. rewrite Hflag. simpl.
    eexists; split; [reflexivity|apply logged_same_data].
  - exact Hbig.
  - intros w s n p Hflag Hn. apply Hbig; [done|].
    unfold uint, FAKE_GPU_COUNT.
    rewrite <- (Z.mod_add n 1 (2 ^ 32)) by lia.
    rewrite Z.mod_small; lia.
  - intros w s i b h0 Hs Hflag Hi Hb.
    exists (fake_gpu i). eexists. split; [by apply reachable_lookup|].
    split; [reflexivity|]. split; [by eapply handle_by_index_run|].
    rewrite ?logged_heap, ?logged_fake_gpus, ?logged_initialized; simpl.
    by rewrite ?logged_heap, ?logged_fake_gpus, ?logged_initialized.
Qed.

Lemma code_run m s r s' : m s = inr (r, s') → code m s = inr (RCode r, s').
Proof. intros H. unfold code. by rewrite bind_run, H. Qed.

Lemma uint_small i : 0 ≤ i < FAKE_GPU_COUNT → uint i = i.
Proof. intros Hi. unfold FAKE_GPU_COUNT in Hi. unfold uint. apply Z.mod_small. lia. Qed.

(** ** Per-device queries on a handle the library has issued *)

Section IssuedHandle.
Variables (w : world) (s : state) (i : Z).
Hypothesis Hs : reachable s.
Hypothesis Hflag : initialized s = true.
Hypothesis Hi : 0 ≤ i < FAKE_GPU_COUNT.

Lemma deref_issued s0 :
  g_fake_gpus s0 = g_fake_gpus s →
  deref_gpu (DevGpu (Z.to_nat i)) s0 = inr (fake_gpu i, s0).
Proof.
  intros E. simpl. unfold array_get.
  by rewrite E, (reachable_lookup s i Hs Hflag Hi).
Qed.

Lemma minor_number_run b v0 :
  heap s !! b = Some (OWord v0) →
  nvmlDeviceGetMinorNumber w (DevGpu (Z.to_nat i)) (Loc b) s =
    inr (NVML_SUCCESS,
         logged w "nvmlDeviceGetMinorNumber" "exit"
           (set_heap (<[b := OWord i]> (heap s))
              (logged w "nvmlDeviceGetMinorNumber" "enter" s))).
Proof.
  intros Hb. unfold_entry. rewrite (flag_test _ Hflag). unfold_entry.
  rewrite deref_issued by apply logged_fake_gpus.
  rewrite bind_run.
  erewrite store_word_Loc by (rewrite logged_heap; exact Hb).
  unfold_entry. simpl. by rewrite logged_heap, (uint_small i Hi).
Qed.

Lemma name_run b old n :
  heap s !! b = Some (OChars old) → (Z.to_nat n ≤ length old)%nat →
  nvmlDeviceGetName w (DevGpu (Z.to_nat i)) (Loc b) n s =
    inr (NVML_SUCCESS,
         logged w "nvmlDeviceGetName" "exit"
           (set_heap (<[b := OChars (strncpy_bytes (name (fake_gpu i)) (Z.to_nat n)
                                       ++ drop (Z.to_nat n) old)]> (heap s))
              (logged w "nvmlDeviceGetName" "enter" s))).
Proof.
  intros Hb Hn. unfold_entry. rewrite (flag_test _ Hflag). unfold_entry.
  rewrite deref_issued by apply logged_fake_gpus.
  rewrite bind_run.
  erewrite strncpy_Loc by (rewrite ?logged_heap; done).
  unfold_entry. by rewrite logged_heap.
Qed.

Lemma uuid_run b old n :
  heap s !! b = Some (OChars old) → (Z.to_nat n ≤ length old)%nat →
  nvmlDeviceGetUUID w (DevGpu (Z.to_nat i)) (Loc b) n s =
    inr (NVML_SUCCESS,
         logged w "nvmlDeviceGetUUID" "exit"
           (set_heap (<[b := OChars (strncpy_bytes (uuid (fake_gpu i)) (Z.to_nat n)
                                       ++ drop (Z.to_nat n) old)]> (heap s))
              (logged w "nvmlDeviceGetUUID" "enter" s))).
Proof.
  intros Hb Hn. unfold_entry. rewrite (flag_test _ Hflag). unfold_entry.
  rewrite deref_issued by apply logged_fake_gpus.
  rewrite bind_run.
  erewrite strncpy_Loc by (rewrite ?logged_heap; done).
  unfold_entry. by rewrite logged_heap.
Qed.

Lemma pci_info_run b v0 :
  heap s !! b = Some (OPciInfo v0) →
  nvmlDeviceGetPciInfo w (DevGpu (Z.to_nat i)) (Loc b) s =
    inr (NVML_SUCCESS,
         logged w "nvmlDeviceGetPciInfo" "exit"
           (set_heap (<[b := OPciInfo (pci (fake_gpu i))]> (heap s))
              (logged w "nvmlDeviceGetPciInfo" "enter" s))).
Proof.
  intros Hb. unfold_entry. rewrite (flag_test _ Hflag). unfold_entry.
  rewrite deref_issued by apply logged_fake_gpus.
  rewrite bind_run.
  erewrite memcpy_pci_Loc by (rewrite logged_heap; exact Hb).
  unfold_entry. by rewrite logged_heap.
Qed.
End IssuedHandle.

(** [nvmlDeviceGetBrand] never looks at its handle. *)
Lemma brand_run w s d b v0 :
  initialized s = true → heap s !! b = Some (OWord v0) →
  nvmlDeviceGetBrand w d (Loc b) s =
    inr (NVML_SUCCESS,
         logged w "nvmlDeviceGetBrand" "exit"
           (set_heap (<[b := OWord NVML_BRAND_TESLA]> (heap s))
              (logged w "nvmlDeviceGetBrand" "enter" s))).
Proof.
  intros Hflag Hb. unfold_entry. rewrite (flag_test _ Hflag). unfold_entry.
  erewrite store_word_Loc by (rewrite logged_heap; exact Hb).
  unfold_entry. by rewrite logged_heap.
Qed.

(** A successful Initialize opens such a state. *)
Lemma init_success_session w s0 s :
  reachable s0 → nvmlInit_v2 w s0 = inr (NVML_SUCCESS, s) →
  reachable s ∧ initialized s = true.
Proof.
  intros Hs0 Hinit. split.
  - eapply (reachable_call w Init); [exact Hs0|]. simpl. by apply code_run.
  - revert Hinit. rewrite init_run.
    destruct (g_initialized s0 =? 0); [|discriminate].
    intros [= <-]. by rewrite initialized_logged.
Qed.

(** C6. In every state the library reaches with the flag set, that is
    after a successful Initialize and until the next Shutdown, and for every
    index below the device count: GetHandleByIndex succeeds and stores a
    handle, and GetMinorNumber called with that handle succeeds and stores
    exactly the index. *)
Theorem index_roundtrip w1 w2 s i dev out h0 v0 :
  reachable s → initialized s = true →
  0 ≤ i < FAKE_GPU_COUNT →
  heap s !! dev = Some (ODevice h0) →
  heap s !! out = Some (OWord v0) →
  ∃ h s1 s2,
    nvmlDeviceGetHandleByIndex_v2 w1 i (Loc dev) s = inr (NVML_SUCCESS, s1)
    ∧ heap s1 !! dev = Some (ODevice h)
    ∧ nvmlDeviceGetMinorNumber w2 h (Loc out) s1 = inr (NVML_SUCCESS, s2)
    ∧ heap s2 !! out = Some (OWord i).
Proof.
  intros Hs Hflag Hi Hdev Hout.
  pose proof (handle_by_index_run w1 s i dev h0 Hs Hflag Hi Hdev) as H1.
  set (s1 := logged w1 "nvmlDeviceGetHandleByIndex_v2" "exit" _) in H1.
  assert (Hheap1 : heap s1 = <[dev := ODevice (DevGpu (Z.to_nat i))]> (heap s)).
  { unfold s1. by rewrite logged_heap. }
  assert (Hs1 : reachable s1).
  { eapply (reachable_call w1 (DeviceGetHandleByIndex i (Loc dev))); [exact Hs|].
    simpl. by apply code_run. }
  assert (Hflag1 : initialized s1 = true).
  { rewrite <- Hflag. unfold s1. rewrite initialized_logged.
    unfold initialized. simpl. by rewrite logged_initialized. }
  assert (Hout1 : heap s1 !! out = Some (OWord v0)).
  { rewrite Hheap1, lookup_insert_ne; [done|]. intros ->. congruence. }
  exists (DevGpu (Z.to_nat i)), s1. eexists.
  split; [exact H1|]. split; [by rewrite Hheap1, lookup_insert_eq|].
  split; [by eapply minor_number_run|].
  rewrite logged_heap. simpl. by rewrite lookup_insert_eq.
Qed.

Lemma session_reachable : reachable session.
Proof.
  apply (reachable_call quiet Init loaded (RCode NVML_SUCCESS));
    [apply reachable_load|reflexivity].
Qed.

Lemma session_initialized : initialized session = true.
Proof. reflexivity. Qed.

(** The handles GetHandleByIndex hands out are the addresses of the
    registry's records, in every session. *)
Lemma issued_handle w s i p s' :
  reachable s → 0 ≤ i →
  nvmlDeviceGetHandleByIndex_v2 w i p s = inr (NVML_SUCCESS, s') →
  ∃ b, p = Loc b ∧ i < FAKE_GPU_COUNT
       ∧ heap s' !! b = Some (ODevice (DevGpu (Z.to_nat i))).
Proof.
  intros Hs Hi0. unfold_entry.
  destruct (g_initialized s =? 0) eqn:Hg; [discriminate|].
  assert (Hflag : initialized s = true) by (unfold initialized; by rewrite Hg).
  unfold uint, FAKE_GPU_COUNT. change (4 mod 2 ^ 32) with 4.
  destruct (Z.geb_spec i 4) as [|Hi]; [discriminate|].
  unfold_entry. unfold array_get. rewrite logged_fake_gpus.
  rewrite (reachable_lookup s i Hs Hflag) by (unfold FAKE_GPU_COUNT; lia).
  rewrite bind_run. destruct p as [|b]; [discriminate|]. simpl.
  rewrite logged_heap. destruct (heap s !! b) as [[]|]; try discriminate.
  unfold_entry. intros [= <-]. exists b. repeat split; [lia|].
  rewrite logged_heap. simpl. by rewrite lookup_insert_eq.
Qed.

(** No per-device query has a path that rejects its handle: with the flag
    set, the only code one of them returns is success. *)
Lemma device_query_never_rejects w c s r s' :
  is_device_query c = true → initialized s = true →
  exec w c s = inr (r, s') → r = RCode NVML_SUCCESS.
Proof.
  intros Hc Hflag. apply flag_test in Hflag.
  destruct c; try discriminate Hc; unfold_entry; rewrite Hflag; unfold_entry;
    repeat match goal with
      | |- context [match ?m ?st with inl _ => _ | inr _ => _ end] =>
          destruct (m st) as [?|[? ?]]; unfold_entry
      end;
    intros [= <- <-] || discriminate; reflexivity.
Qed.

(** ** Handles are read through, never checked *)

Lemma handle_record_same_data s1 s2 d :
  same_data s1 s2 → handle_record s1 d = handle_record s2 d.
Proof. intros (E1 & _ & E3). destruct d; simpl; by rewrite ?E1, ?E3. Qed.

Lemma deref_gpu_record d s gpu :
  handle_record s d = Some gpu → deref_gpu d s = inr (gpu, s).
Proof.
  destruct d; simpl; try done.
  - unfold array_get. by intros ->.
  - unfold object_get. destruct (heap s !! b) as [[]|]; try done. by intros [= ->].
Qed.

Lemma deref_gpu_record_logged w f msg d s gpu :
  handle_record s d = Some gpu →
  deref_gpu d (logged w f msg s) = inr (gpu, logged w f msg s).
Proof.
  intros H. apply deref_gpu_record.
  by rewrite (handle_record_same_data _ s) by apply logged_same_data.
Qed.

Section ReadableHandle.
Variables (w : world) (s : state) (d : nvmlDevice_t) (gpu : fakeGpu_t).
Hypothesis Hflag : initialized s = true.
Hypothesis Hrecord : handle_record s d = Some gpu.

Lemma readable_minor_number b v0 :
  heap s !! b = Some (OWord v0) →
  ∃ s', nvmlDeviceGetMinorNumber w d (Loc b) s = inr (NVML_SUCCESS, s')
        ∧ heap s' = <[b := OWord (uint (index gpu))]> (heap s).
Proof.
  intros Hb. eexists. split.
  - unfold_entry. rewrite (flag_test _ Hflag). unfold_entry.
    rewrite (deref_gpu_record_logged _ _ _ _ _ _ Hrecord). rewrite bind_run.
    erewrite store_word_Loc by (rewrite logged_heap; exact Hb).
    unfold_entry. reflexivity.
  - rewrite logged_heap. simpl. by rewrite logged_heap.
Qed.

Lemma readable_name b old n :
  heap s !! b = Some (OChars old) → (Z.to_nat n ≤ length old)%nat →
  ∃ s', nvmlDeviceGetName w d (Loc b) n s = inr (NVML_SUCCESS, s')
        ∧ heap s' = <[b := OChars (strncpy_bytes (name gpu) (Z.to_nat n)
                                     ++ drop (Z.to_nat n) old)]> (heap s).
Proof.
  intros Hb Hn. eexists. split.
  - unfold_entry. rewrite (flag_test _ Hflag). unfold_entry.
    rewrite (deref_gpu_record_logged _ _ _ _ _ _ Hrecord). rewrite bind_run.
    erewrite strncpy_Loc by (rewrite ?logged_heap; done).
    unfold_entry. reflexivity.
  - rewrite logged_heap. simpl. by rewrite logged_heap.
Qed.

Lemma readable_uuid b old n :
  heap s !! b = Some (OChars old) → (Z.to_nat n ≤ length old)%nat →
  ∃ s', nvmlDeviceGetUUID w d (Loc b) n s = inr (NVML_SUCCESS, s')
        ∧ heap s' = <[b := OChars (strncpy_bytes (uuid gpu) (Z.to_nat n)
                                     ++ drop (Z.to_nat n) old)]> (heap s).
Proof.
  intros Hb Hn. eexists. split.
  - unfold_entry. rewrite (flag_test _ Hflag). unfold_entry.
    rewrite (deref_gpu_record_logged _ _ _ _ _ _ Hrecord). rewrite bind_run.
    erewrite strncpy_Loc by (rewrite ?logged_heap; done).
    unfold_entry. reflexivity.
  - rewrite logged_heap. simpl. by rewrite logged_heap.
Qed.

Lemma readable_pci_info b v0 :
  heap s !! b = Some (OPciInfo v0) →
  ∃ s', nvmlDeviceGetPciInfo w d (Loc b) s = inr (NVML_SUCCESS, s')
        ∧ heap s' = <[b := OPciInfo (pci gpu)]> (heap s).
Proof.
  intros Hb. eexists. split.
  - unfold_entry. rewrite (flag_test _ Hflag). unfold_entry.
    rewrite (deref_gpu_record_logged _ _ _ _ _ _ Hrecord). rewrite bind_run.
    erewrite memcpy_pci_Loc by (rewrite logged_heap; exact Hb).
    unfold_entry. reflexivity.
  - rewrite logged_heap. simpl. by rewrite logged_heap.
Qed.
End ReadableHandle.

(** A handle GetHandleByIndex has handed out, in whatever session, points
    at its record of the registry in every later state with the flag set. *)
Lemma issued_handle_record w0 s0 s0' s i dev h :
  reachable s0 → 0 ≤ i →
  nvmlDeviceGetHandleByIndex_v2 w0 i (Loc dev) s0 = inr (NVML_SUCCESS, s0') →
  heap s0' !! dev = Some (ODevice h) →
  reachable s → initialized s = true →
  h = DevGpu (Z.to_nat i) ∧ handle_record s h = Some (fake_gpu i).
Proof.
  intros Hs0 Hi0 Hissue Hdev Hs Hflag.
  destruct (issued_handle _ _ _ _ _ Hs0 Hi0 Hissue) as (b0 & [= <-] & Hi & Hh).
  rewrite Hh in Hdev. injection Hdev as <-. split; [done|].
  simpl. by apply reachable_lookup.
Qed.

(** With a null handle there is nothing to read: the four queries that
    read their handle fault on it (the string queries when asked for a byte
    at least). *)
Lemma null_handle_faults w s p n :
  initialized s = true → 1 ≤ n →
  nvmlDeviceGetMinorNumber w DevNull p s = inl NullDereference
  ∧ nvmlDeviceGetPciInfo w DevNull p s = inl NullDereference
  ∧ nvmlDeviceGetName w DevNull p n s = inl NullDereference
  ∧ nvmlDeviceGetUUID w DevNull p n s = inl NullDereference.
Proof.
  intros Hflag _. apply flag_test in Hflag.
  repeat split; unfold_entry; rewrite Hflag; reflexivity.
Qed.

(** C3, as stated, fails: in an initialized session, and with output
    arguments with which the call succeeds on an issued handle, a null
    handle is not accepted with success by GetMinorNumber, GetDeviceName,
    GetDeviceUUID or GetPciInfo.  The handle is read through unchecked, and
    the call dereferences the null pointer instead of returning. *)
Lemma null_handle_dereferenced :
  reachable session ∧ initialized session = true
  ∧ (∃ s', nvmlDeviceGetMinorNumber quiet (DevGpu 0) (Loc 2) session
             = inr (NVML_SUCCESS, s'))
  ∧ nvmlDeviceGetMinorNumber quiet DevNull (Loc 2) session = inl NullDereference
  ∧ (∃ s', nvmlDeviceGetName quiet (DevGpu 0) (Loc 1) 64 session
             = inr (NVML_SUCCESS, s'))
  ∧ nvmlDeviceGetName quiet DevNull (Loc 1) 64 session = inl NullDereference
  ∧ (∃ s', nvmlDeviceGetUUID quiet (DevGpu 0) (Loc 1) 64 session
             = inr (NVML_SUCCESS, s'))
  ∧ nvmlDeviceGetUUID quiet DevNull (Loc 1) 64 session = inl NullDereference
  ∧ (∃ s', nvmlDeviceGetPciInfo quiet (DevGpu 0) (Loc 5) session
             = inr (NVML_SUCCESS, s'))
  ∧ nvmlDeviceGetPciInfo quiet DevNull (Loc 5) session = inl NullDereference.
Proof.
  split; [apply session_reachable|]. split; [reflexivity|].
  repeat split; try reflexivity; eexists; reflexivity.
Qed.

(** C3, amended.  The per-device queries do not check where a handle comes
    from; with the flag set they read through it.  Every handle through
    which a record can be read is accepted silently and the query succeeds
    with what is read there: GetDeviceName, GetDeviceUUID, GetPciInfo and
    GetMinorNumber store the name, the UUID, the PCI record and the index
    found behind the handle.  Such are the handles GetHandleByIndex has
    returned, in the current session or before a prior Shutdown (they point
    at the registry's record of their index in every state with the flag
    set), and such is a forged handle that points at readable memory of the
    caller's.  GetBrand never reads its handle and succeeds with any handle
    value at all, the null one too.  Only the flag is tested: with the flag
    set no per-device query returns an error code for any handle value.  The
    null handle is the one the four reading queries do not succeed with: they
    dereference it (GetDeviceName and GetDeviceUUID are stated for a length
    of 1 or more). *)
Theorem handle_never_validated :
  (∀ w0 s0 s0' s i dev h,
     reachable s0 → 0 ≤ i →
     nvmlDeviceGetHandleByIndex_v2 w0 i (Loc dev) s0 = inr (NVML_SUCCESS, s0') →
     heap s0' !! dev = Some (ODevice h) →
     reachable s → initialized s = true →
     handle_record s h = Some (fake_gpu i))
  ∧ (∀ s b gpu,
       heap s !! b = Some (OGpu gpu) → handle_record s (DevObject b) = Some gpu)
  ∧ (∀ w s d gpu,
       initialized s = true → handle_record s d = Some gpu →
       (∀ b old n,
          heap s !! b = Some (OChars old) → (Z.to_nat n ≤ length old)%nat →
          ∃ s', nvmlDeviceGetName w d (Loc b) n s = inr (NVML_SUCCESS, s')
                ∧ heap s' = <[b := OChars (strncpy_bytes (name gpu) (Z.to_nat n)
                                             ++ drop (Z.to_nat n) old)]> (heap s))
       ∧ (∀ b old n,
            heap s !! b = Some (OChars old) → (Z.to_nat n ≤ length old)%nat →
            ∃ s', nvmlDeviceGetUUID w d (Loc b) n s = inr (NVML_SUCCESS, s')
                  ∧ heap s' = <[b := OChars (strncpy_bytes (uuid gpu) (Z.to_nat n)
                                               ++ drop (Z.to_nat n) old)]> (heap s))
       ∧ (∀ b v0,
            heap s !! b = Some (OPciInfo v0) →
            ∃ s', nvmlDeviceGetPciInfo w d (Loc b) s = inr (NVML_SUCCESS, s')
                  ∧ heap s' = <[b := OPciInfo (pci gpu)]> (heap s))
       ∧ (∀ b v0,
            heap s !! b = Some (OWord v0) →
            ∃ s', nvmlDeviceGetMinorNumber w d (Loc b) s = inr (NVML_SUCCESS, s')
                  ∧ heap s' = <[b := OWord (uint (index gpu))]> (heap s)))
  ∧ (∀ w s d b v0,
       initialized s = true → heap s !! b = Some (OWord v0) →
       ∃ s', nvmlDeviceGetBrand w d (Loc b) s = inr (NVML_SUCCESS, s')
             ∧ heap s' = <[b := OWord NVML_BRAND_TESLA]> (heap s))
  ∧ (∀ w c s r s',
       is_device_query c = true → initialized s = true →
       exec w c s = inr (r, s') → r = RCode NVML_SUCCESS)
  ∧ (∀ w s p n,
       initialized s = true → 1 ≤ n →
       nvmlDeviceGetMinorNumber w DevNull p s = inl NullDereference
       ∧ nvmlDeviceGetPciInfo w DevNull p s = inl NullDereference
       ∧ nvmlDeviceGetName w DevNull p n s = inl NullDereference
       ∧ nvmlDeviceGetUUID w DevNull p n s = inl NullDereference).
Proof.
  split; [|split; [|split; [|split; [|split]]]].
  - intros w0 s0 s0' s i dev h Hs0 Hi Hissue Hdev Hs Hflag.
    by destruct (issued_handle_record w0 s0 s0' s i dev h).
  - intros s b gpu Hb. simpl. by rewrite Hb.
  - intros w s d gpu Hflag Hrecord. split; [|split; [|split]].
    + intros b old n. by apply readable_name.
    + intros b old n. by apply readable_uuid.
    + intros b v0. by apply readable_pci_info.
    + intros b v0. by apply readable_minor_number.
  - intros w s d b v0 Hflag Hb. eexists. split; [by eapply brand_run|].
    by rewrite logged_heap.
  - intros w c s r s' Hc Hflag Hexec. by eapply device_query_never_rejects.
  - intros w s p n Hflag Hn. by apply null_handle_faults.
Qed.

(** ** Output pointers *)

Lemma checked_null_run w c s p q :
  initialized s = true → checked_outputs c = Some (p, q) →
  p = NULL ∨ q = NULL →
  ∃ f, exec w c s = inr (RCode NVML_ERROR_INVALID_ARGUMENT, logged w f "enter" s).
Proof.
  intros Hflag Hc Hnull. apply flag_test in Hflag.
  assert (Hor : bool_decide (p = NULL) || bool_decide (q = NULL) = true).
  { destruct Hnull as [-> | ->]; [done|]. by rewrite orb_true_r. }
  destruct c; try discriminate Hc; injection Hc as -> ->;
    eexists; unfold_entry; rewrite Hflag, Hor; reflexivity.
Qed.

(** C8. With the flag set, GetComputeCapability called with one of its
    two output pointers null (the minor one, say, or the major one, or
    both) returns InvalidArgument and writes nothing: the location behind
    the other pointer, like all of the caller's memory, is as it was.  The
    same holds for GetMigCapability and GetMigMode. *)
Theorem null_output_rejected w c s p q :
  initialized s = true → checked_outputs c = Some (p, q) →
  p = NULL ∨ q = NULL →
  ∃ s', exec w c s = inr (RCode NVML_ERROR_INVALID_ARGUMENT, s')
        ∧ heap s' = heap s ∧ same_data s' s.
Proof.
  intros Hflag Hc Hnull.
  destruct (checked_null_run w c s p q Hflag Hc Hnull) as [f ->].
  eexists. split; [reflexivity|].
  split; [apply logged_heap|apply logged_same_data].
Qed.

Lemma deref_gpu_state d s gpu s' : deref_gpu d s = inr (gpu, s') → s' = s.
Proof.
  destruct d; simpl; try done.
  - unfold array_get. destruct (g_fake_gpus s !! i); [|done]. by intros [= _ <-].
  - unfold object_get. destruct (heap s !! b) as [[]|]; try done.
    by intros [= _ <-].
Qed.


Lemma store_word_inv p v s a s' :
  store_word p v s = inr (a, s') →
  ∃ b v0, p = Loc b ∧ heap s !! b = Some (OWord v0)
          ∧ s' = set_heap (<[b := OWord v]> (heap s)) s.
Proof.
  destruct p as [|b]; [discriminate|]. simpl.
  destruct (heap s !! b) as [[v0| | | |]|] eqn:E; try discriminate.
  intros [= <- <-]. by exists b, v0.
Qed.


(** ** Tracing *)

Section Agree.
Context {A B : Type}.

Lemma agree_ret (a : A) : agree (mret a) (mret a).
Proof. intros s1 s2 H. by split. Qed.

Lemma agree_raise e : agree (raise (A:=A) e) (raise e).
Proof. intros s1 s2 H. reflexivity. Qed.

Lemma agree_bind (m1 m2 : M A) (f1 f2 : A → M B) :
  agree m1 m2 → (∀ a, agree (f1 a) (f2 a)) → agree (m1 ≫= f1) (m2 ≫= f2).
Proof.
  intros Hm Hf s1 s2 H. rewrite !bind_run. specialize (Hm s1 s2 H).
  destruct (m1 s1) as [e1|[a1 t1]], (m2 s2) as [e2|[a2 t2]]; try done.
  destruct Hm as [-> Ht]. by apply Hf.
Qed.

Lemma agree_gets (f : state → A) :
  (∀ s1 s2, same_data s1 s2 → f s1 = f s2) → agree (gets f) (gets f).
Proof. intros Hf s1 s2 H. split; [by apply Hf|done]. Qed.
End Agree.

Lemma agree_modify f :
  (∀ s1 s2, same_data s1 s2 → same_data (f s1) (f s2)) →
  agree (modify f) (modify f).
Proof. intros Hf s1 s2 H. split; [done|by apply Hf]. Qed.

(** The heart of the matter: whatever two environments say about
    [FAKE_NVML_LOG], and whatever is logged, [LOG] changes no data. *)
Lemma agree_LOG w1 w2 f1 f2 msg1 msg2 : agree (LOG w1 f1 msg1) (LOG w2 f2 msg2).
Proof.
  intros s1 s2 H. rewrite !LOG_run. split; [done|].
  by rewrite !logged_same_data.
Qed.

Lemma agree_store_word p v : agree (store_word p v) (store_word p v).
Proof.
  intros s1 s2 H. destruct p as [|b]; [done|]. simpl.
  destruct H as (E1 & E2 & E3). rewrite <- E3.
  destruct (heap s1 !! b) as [[]|]; done.
Qed.

Lemma agree_store_device p h : agree (store_device p h) (store_device p h).
Proof.
  intros s1 s2 H. destruct p as [|b]; [done|]. simpl.
  destruct H as (E1 & E2 & E3). rewrite <- E3.
  destruct (heap s1 !! b) as [[]|]; done.
Qed.

Lemma agree_memcpy_pci p v : agree (memcpy_pci p v) (memcpy_pci p v).
Proof.
  intros s1 s2 H. destruct p as [|b]; [done|]. simpl.
  destruct H as (E1 & E2 & E3). rewrite <- E3.
  destruct (heap s1 !! b) as [[]|]; done.
Qed.

Lemma agree_strncpy p src n : agree (strncpy p src n) (strncpy p src n).
Proof.
  intros s1 s2 H. destruct p as [|b]; [done|]. simpl.
  destruct H as (E1 & E2 & E3). rewrite <- E3.
  destruct (heap s1 !! b) as [[]|]; try done.
  by destruct (_ <=? _)%nat.
Qed.

Lemma agree_array_get i : agree (array_get i) (array_get i).
Proof.
  intros s1 s2 H. unfold array_get. pose proof H as (E1 & _). rewrite <- E1.
  by destruct (g_fake_gpus s1 !! i).
Qed.

Lemma agree_object_get b : agree (object_get b) (object_get b).
Proof.
  intros s1 s2 H. unfold object_get. pose proof H as (_ & _ & E). rewrite <- E.
  by destruct (heap s1 !! b) as [[]|].
Qed.

Lemma agree_deref_gpu d : agree (deref_gpu d) (deref_gpu d).
Proof.
  destruct d; simpl; auto using agree_array_get, agree_object_get, agree_raise.
Qed.

Lemma agree_if {A} (b : bool) (m1 m2 n1 n2 : M A) :
  agree m1 m2 → agree n1 n2 →
  agree (if b then m1 else n1) (if b then m2 else n2).
Proof. by destruct b. Qed.

Ltac agree_tac :=
  repeat first
    [ apply agree_bind; [|intros ?]
    | apply agree_if
    | apply agree_LOG | apply agree_ret | apply agree_raise
    | apply agree_store_word | apply agree_store_device
    | apply agree_memcpy_pci | apply agree_strncpy
    | apply agree_array_get | apply agree_deref_gpu
    | apply agree_gets; intros ? ? (? & ? & ?); congruence
    | apply agree_modify; intros ? ? (? & ? & ?); repeat split; simpl; congruence ].

Lemma exec_agree w1 w2 c : agree (exec w1 c) (exec w2 c).
Proof.
  destruct c; unfold exec, code, nvmlInit_v2, nvmlShutdown, nvmlErrorString,
    nvmlSystemGetDriverVersion, nvmlSystemGetCudaDriverVersion,
    nvmlDeviceGetCount_v2, nvmlDeviceGetHandleByIndex_v2, nvmlDeviceGetName,
    nvmlDeviceGetUUID, nvmlDeviceGetPciInfo,
    nvmlDeviceGetCudaComputeCapability, nvmlDeviceGetBrand,
    nvmlDeviceGetMinorNumber, nvmlDeviceGetMigCapability, nvmlDeviceGetMigMode;
    agree_tac.
Qed.

(** C9. Run any entry point with any arguments twice, in two environments
    that may differ in [FAKE_NVML_LOG] (and in the clock and the process
    id), from states that hold the same data: both runs fault alike, or both
    return, with the same value, the same flag and registry and the same
    contents of the caller's memory, so with the same values behind every
    output pointer.  Only the trace on standard error can differ. *)
Theorem tracing_noninterference w1 w2 c s1 s2 :
  same_data s1 s2 → same_result (exec w1 c s1) (exec w2 c s2).
Proof. apply exec_agree. Qed.

(** The toggle does matter to the trace: the property above is not that of
    a [LOG] that does nothing. *)
Lemma tracing_traces :
  (∃ s', exec quiet (DeviceGetCount (Loc 2)) session = inr (RCode NVML_SUCCESS, s')
         ∧ stderr s' = [])
  ∧ (∃ s', exec tracing (DeviceGetCount (Loc 2)) session = inr (RCode NVML_SUCCESS, s')
           ∧ stderr s' =
               [ {| log_time := 1700000000; log_pid := 4242;
                    log_func := "nvmlDeviceGetCount_v2"; log_msg := "enter" |};
                 {| log_time := 1700000000; log_pid := 4242;
                    log_func := "nvmlDeviceGetCount_v2"; log_msg := "exit" |} ]).
Proof. split; eexists; (split; [reflexivity|reflexivity]). Qed.

(** ** String outputs *)

Lemma c_string_no_NUL bs i : c_string bs !! i ≠ Some NUL.
Proof.
  revert i. induction bs as [|c bs IH]; intros i; simpl; [done|].
  destruct (Ascii.eqb_spec c NUL) as [->|Hc]; [done|].
  destruct i as [|i]; simpl; [congruence|apply IH].
Qed.

Lemma length_strncpy_bytes src n : length (strncpy_bytes src n) = n.
Proof.
  unfold strncpy_bytes. rewrite length_app, length_take, length_replicate. lia.
Qed.

(** [strncpy] stores the string's first [min n strlen] bytes in order. *)
Lemma strncpy_bytes_prefix src n i :
  (i < n)%nat → (i < strlen src)%nat →
  strncpy_bytes src n !! i = c_string (list_ascii_of_string src) !! i.
Proof.
  intros Hn Hlen. unfold strncpy_bytes, strlen in *.
  rewrite lookup_app_l by (rewrite length_take; lia).
  by apply lookup_take_lt.
Qed.

(** The [n] bytes stored hold a null exactly when the string is shorter
    than [n]. *)
Lemma strncpy_bytes_terminated src n rest :
  terminated_within n (strncpy_bytes src n ++ rest) ↔ (strlen src < n)%nat.
Proof.
  unfold terminated_within, strncpy_bytes, strlen.
  set (cs := c_string (list_ascii_of_string src)). split.
  - intros (i & Hi & Hnul).
    destruct (decide (length cs < n)%nat) as [|Hge]; [done|]. exfalso.
    rewrite <- app_assoc, lookup_app_l in Hnul by (rewrite length_take; lia).
    rewrite lookup_take_lt in Hnul by done.
    by apply c_string_no_NUL in Hnul.
  - intros Hlt. exists (length cs). split; [done|].
    rewrite take_ge by lia. rewrite <- app_assoc, lookup_app_r by done.
    rewrite Nat.sub_diag. rewrite lookup_app_l by (rewrite length_replicate; lia).
    apply lookup_replicate_2. lia.
Qed.

(** Nothing is stored past the first [n] bytes of the buffer. *)
Lemma strncpy_frame src n old :
  (n ≤ length old)%nat →
  length (strncpy_bytes src n ++ drop n old) = length old
  ∧ ∀ i, (n ≤ i)%nat → (strncpy_bytes src n ++ drop n old) !! i = old !! i.
Proof.
  intros Hn. split.
  - rewrite length_app, length_strncpy_bytes, length_drop. lia.
  - intros i Hi. rewrite lookup_app_r by (rewrite length_strncpy_bytes; lia).
    rewrite length_strncpy_bytes, lookup_drop. f_equal. lia.
Qed.

Lemma driver_version_run w s b old n :
  initialized s = true →
  heap s !! b = Some (OChars old) → (Z.to_nat n ≤ length old)%nat →
  nvmlSystemGetDriverVersion w (Loc b) n s =
    inr (NVML_SUCCESS,
         logged w "nvmlSystemGetDriverVersion" "exit"
           (set_heap (<[b := OChars (strncpy_bytes FAKE_DRIVER_VERSION (Z.to_nat n)
                                       ++ drop (Z.to_nat n) old)]> (heap s))
              (logged w "nvmlSystemGetDriverVersion" "enter" s))).
Proof.
  intros Hflag Hb Hn. unfold_entry. rewrite (flag_test _ Hflag). unfold_entry.
  erewrite strncpy_Loc by (rewrite ?logged_heap; done).
  unfold_entry. by rewrite logged_heap.
Qed.

(** What the string-output operations do, for every length: the buffer
    receives the [length] bytes of [strncpy], nothing is stored past them,
    and a terminator is among them exactly when the source string is shorter
    than [length]. *)
Lemma string_output_spec w s o b old n :
  reachable s → initialized s = true → string_record_ok o →
  heap s !! b = Some (OChars old) → (Z.to_nat n ≤ length old)%nat →
  ∃ s' new,
    exec w (string_call o (Loc b) n) s = inr (RCode NVML_SUCCESS, s')
    ∧ heap s' = <[b := OChars new]> (heap s)
    ∧ length new = length old
    ∧ (∀ j, (Z.to_nat n ≤ j)%nat → new !! j = old !! j)
    ∧ (∀ j, (j < Z.to_nat n)%nat → (j < strlen (string_source o))%nat →
         new !! j = c_string (list_ascii_of_string (string_source o)) !! j)
    ∧ (terminated_within (Z.to_nat n) new
       ↔ (strlen (string_source o) < Z.to_nat n)%nat).
Proof.
  intros Hs Hflag Ho Hb Hn.
  assert (∃ s', exec w (string_call o (Loc b) n) s = inr (RCode NVML_SUCCESS, s')
                ∧ heap s' = <[b := OChars (strncpy_bytes (string_source o) (Z.to_nat n)
                                             ++ drop (Z.to_nat n) old)]> (heap s))
    as (s' & Hrun & Hheap).
  { destruct o as [|i|i]; simpl in Ho |- *; eexists.
    - split; [by apply code_run, driver_version_run|]. by rewrite logged_heap.
    - split; [by apply code_run, name_run|]. by rewrite logged_heap.
    - split; [by apply code_run, uuid_run|]. by rewrite logged_heap. }
  exists s', (strncpy_bytes (string_source o) (Z.to_nat n) ++ drop (Z.to_nat n) old).
  destruct (strncpy_frame (string_source o) (Z.to_nat n) old Hn) as [Hlen Hframe].
  repeat (split; [done|]). split.
  - intros j Hj1 Hj2.
    rewrite lookup_app_l by (rewrite length_strncpy_bytes; lia).
    by apply strncpy_bytes_prefix.
  - apply strncpy_bytes_terminated.
Qed.

(** Hence a length from 1 up to the length of the source string gets
    [length] bytes of the string and no terminator. *)
Lemma string_output_short_buffer w s o b old n :
  reachable s → initialized s = true → string_record_ok o →
  heap s !! b = Some (OChars old) → (Z.to_nat n ≤ length old)%nat →
  (1 ≤ Z.to_nat n ≤ strlen (string_source o))%nat →
  ∃ s' new,
    exec w (string_call o (Loc b) n) s = inr (RCode NVML_SUCCESS, s')
    ∧ heap s' !! b = Some (OChars new)
    ∧ take (Z.to_nat n) new
        = take (Z.to_nat n) (c_string (list_ascii_of_string (string_source o)))
    ∧ ¬ terminated_within (Z.to_nat n) new.
Proof.
  intros Hs Hflag Ho Hb Hn Hshort.
  destruct (string_output_spec w s o b old n Hs Hflag Ho Hb Hn)
    as (s' & new & Hrun & Hheap & Hlen & _ & Hcopy & Hterm).
  exists s', new. split; [done|]. split; [by rewrite Hheap, lookup_insert_eq|].
  split.
  - apply list_eq. intros j. destruct (decide (j < Z.to_nat n)%nat) as [Hj|Hj].
    + rewrite !lookup_take_lt by done. apply Hcopy; [done|].
      unfold strlen in *. lia.
    + rewrite !lookup_take_ge by lia. done.
  - rewrite Hterm. lia.
Qed.

(** C1 fails on the code: [strncpy] is given the whole [length].  After
    Initialize, GetDriverVersion, GetDeviceName and GetDeviceUUID called
    with a 4-byte buffer and length 4 succeed and fill all four bytes with
    bytes of the source string; no terminating null is in the buffer. *)
Theorem string_output_unterminated :
  (∃ s', nvmlSystemGetDriverVersion quiet (Loc 0) 4 session = inr (NVML_SUCCESS, s')
         ∧ heap s' !! 0%nat = Some (OChars (list_ascii_of_string "535.")))
  ∧ (∃ s', nvmlDeviceGetName quiet (DevGpu 0) (Loc 0) 4 session = inr (NVML_SUCCESS, s')
           ∧ heap s' !! 0%nat = Some (OChars (list_ascii_of_string "NVID")))
  ∧ (∃ s', nvmlDeviceGetUUID quiet (DevGpu 0) (Loc 0) 4 session = inr (NVML_SUCCESS, s')
           ∧ heap s' !! 0%nat = Some (OChars (list_ascii_of_string "GPU-")))
  ∧ ¬ terminated_within 4 (list_ascii_of_string "535.")
  ∧ ¬ terminated_within 4 (list_ascii_of_string "NVID")
  ∧ ¬ terminated_within 4 (list_ascii_of_string "GPU-").
Proof.
  repeat split; try (eexists; split; reflexivity);
    intros (j & Hj & Hnul);
    do 4 (destruct j as [|j]; [discriminate Hnul|]); lia.
Qed.

(** ** Translation of error codes *)

(** [nvmlErrorString] never fails, in any state, initialized or not, and
    changes no data; what it returns depends on the code alone. *)
Lemma error_string_run w result s :
  ∃ s', nvmlErrorString w result s = inr (error_label result, s')
        ∧ same_data s' s.
Proof.
  unfold_entry. eexists. split; [reflexivity|].
  by rewrite !logged_same_data.
Qed.

(** A code that is no enumerator's value gets the generic label. *)
Lemma error_label_unrecognized result :
  (∀ r, result ≠ nvmlReturn_code r) → error_label result = "Unknown Error"%string.
Proof.
  intros H. unfold error_label.
  repeat match goal with
    | |- context [result =? nvmlReturn_code ?r] =>
        destruct (Z.eqb_spec result (nvmlReturn_code r)) as [E|_];
        [by apply H in E|]
    end.
  reflexivity.
Qed.

(** The enumerators the [switch] has a case for, each with a label of its
    own. *)
Lemma error_label_cases :
  error_label (nvmlReturn_code NVML_SUCCESS) = "Success"%string
  ∧ error_label (nvmlReturn_code NVML_ERROR_UNINITIALIZED) = "Uninitialized"%string
  ∧ error_label (nvmlReturn_code NVML_ERROR_INVALID_ARGUMENT) = "Invalid Argument"%string
  ∧ error_label (nvmlReturn_code NVML_ERROR_NOT_SUPPORTED) = "Not Supported"%string
  ∧ error_label (nvmlReturn_code NVML_ERROR_NO_PERMISSION) = "No Permission"%string
  ∧ error_label (nvmlReturn_code NVML_ERROR_ALREADY_INITIALIZED)
      = "Already Initialized"%string
  ∧ error_label (nvmlReturn_code NVML_ERROR_NOT_FOUND) = "Not Found"%string
  ∧ error_label (nvmlReturn_code NVML_ERROR_INSUFFICIENT_SIZE)
      = "Insufficient Size"%string
  ∧ error_label (nvmlReturn_code NVML_ERROR_DRIVER_NOT_LOADED)
      = "Driver Not Loaded"%string
  ∧ error_label (nvmlReturn_code NVML_ERROR_FUNCTION_NOT_FOUND)
      = "Function Not Found"%string.
Proof. repeat split. Qed.

(** The enumerators that share the generic label are exactly the one named
    "unknown" and the two the [switch] has no case for. *)
Lemma error_label_generic r :
  error_label (nvmlReturn_code r) = "Unknown Error"%string
  ↔ r = NVML_ERROR_UNKNOWN ∨ r = NVML_ERROR_INSUFFICIENT_POWER
    ∨ r = NVML_ERROR_TIMEOUT.
Proof.
  split.
  - destruct r; intros H; try discriminate H; auto.
  - intros [-> |[-> | ->]]; reflexivity.
Qed.

(** C2 fails on the code for two codes of the enumeration: the [switch]
    has no case for [NVML_ERROR_INSUFFICIENT_POWER] (8) or
    [NVML_ERROR_TIMEOUT] (10), so both are translated like a code that is
    not in the enumeration at all (12, say), to the generic label, before
    and after Initialize. *)
Theorem error_string_missing_cases :
  (∃ s', nvmlErrorString quiet (nvmlReturn_code NVML_ERROR_INSUFFICIENT_POWER) loaded
           = inr ("Unknown Error"%string, s'))
  ∧ (∃ s', nvmlErrorString quiet (nvmlReturn_code NVML_ERROR_TIMEOUT) loaded
             = inr ("Unknown Error"%string, s'))
  ∧ (∃ s', nvmlErrorString quiet (nvmlReturn_code NVML_ERROR_INSUFFICIENT_POWER) session
             = inr ("Unknown Error"%string, s'))
  ∧ (∃ s', nvmlErrorString quiet (nvmlReturn_code NVML_ERROR_TIMEOUT) session
             = inr ("Unknown Error"%string, s'))
  ∧ (∀ r, 12 ≠ nvmlReturn_code r)
  ∧ (∃ s', nvmlErrorString quiet 12 session = inr ("Unknown Error"%string, s')).
Proof.
  repeat split; try (eexists; reflexivity). intros r. by destruct r.
Qed.

(** ** The sample process, run *)

Lemma reachable_after w c s : reachable s → reachable (after w c s).
Proof.
  intros Hs. unfold after. destruct (exec w c s) as [e|[r s']] eqn:E; [done|].
  by eapply reachable_call.
Qed.

Lemma second_session_reachable : reachable second_session.
Proof. do 3 apply reachable_after. apply session_reachable. Qed.

Lemma forged_session_reachable : reachable forged_session.
Proof. apply reachable_caller, second_session_reachable. Qed.

Lemma handle_never_validated_witness :
  reachable session ∧ 0 ≤ 2
  ∧ nvmlDeviceGetHandleByIndex_v2 quiet 2 (Loc 4) session = inr (NVML_SUCCESS, issued)
  ∧ heap issued !! 4%nat = Some (ODevice (DevGpu 2))
  ∧ nvmlShutdown quiet issued = inr (NVML_SUCCESS, closed)
  ∧ nvmlInit_v2 tracing closed = inr (NVML_SUCCESS, second_session)
  ∧ reachable forged_session ∧ initialized forged_session = true
  ∧ handle_record forged_session (DevGpu 2) = Some (fake_gpu 2)
  ∧ (∃ s', nvmlDeviceGetMinorNumber quiet (DevGpu 2) (Loc 2) forged_session
             = inr (NVML_SUCCESS, s')
           ∧ heap s' = <[2%nat := OWord (uint (index (fake_gpu 2)))]>
                         (heap forged_session))
  ∧ heap forged_session !! 6%nat = Some (OGpu forged_gpu)
  ∧ handle_record forged_session (DevObject 6) = Some forged_gpu
  ∧ (∃ s', nvmlDeviceGetMinorNumber quiet (DevObject 6) (Loc 2) forged_session
             = inr (NVML_SUCCESS, s')
           ∧ heap s' = <[2%nat := OWord (uint (index forged_gpu))]>
                         (heap forged_session))
  ∧ (∃ s', nvmlDeviceGetName quiet (DevObject 6) (Loc 1) 64 forged_session
             = inr (NVML_SUCCESS, s')
           ∧ heap s' = <[1%nat := OChars (strncpy_bytes (name forged_gpu) (Z.to_nat 64)
                                            ++ drop (Z.to_nat 64)
                                                 (replicate 64 "X"%char))]>
                         (heap forged_session)).
Proof.
  destruct handle_never_validated as (Hstale & Hforged & Hread & _).
  pose proof (Hstale quiet session issued forged_session 2 4%nat (DevGpu 2)
                session_reachable ltac:(lia) eq_refl eq_refl
                forged_session_reachable eq_refl) as Hrec.
  pose proof (Hforged forged_session 6%nat forged_gpu eq_refl) as Hrec'.
  destruct (Hread quiet forged_session (DevGpu 2) (fake_gpu 2) eq_refl Hrec)
    as (_ & _ & _ & Hminor).
  destruct (Hread quiet forged_session (DevObject 6) forged_gpu eq_refl Hrec')
    as (Hname' & _ & _ & Hminor').
  split; [apply session_reachable|]. split; [lia|].
  do 4 (split; [reflexivity|]).
  split; [apply forged_session_reachable|]. split; [reflexivity|].
  split; [exact Hrec|]. split; [exact (Hminor 2%nat 77 eq_refl)|].
  split; [reflexivity|]. split; [exact Hrec'|].
  split; [exact (Hminor' 2%nat 77 eq_refl)|].
  refine (Hname' 1%nat (replicate 64 "X"%char) 64 eq_refl _). simpl. lia.
Defined.

Lemma handle_by_index_witness :
  initialized loaded = false
  ∧ (∃ s', nvmlDeviceGetHandleByIndex_v2 quiet 0 (Loc 4) loaded
             = inr (NVML_ERROR_UNINITIALIZED, s') ∧ same_data s' loaded)
  ∧ initialized session = true ∧ FAKE_GPU_COUNT ≤ 4
  ∧ (∃ s', nvmlDeviceGetHandleByIndex_v2 quiet 4 (Loc 4) session
             = inr (NVML_ERROR_INVALID_ARGUMENT, s') ∧ same_data s' session)
  ∧ - 2 ^ 31 ≤ -1 < 0
  ∧ (∃ s', nvmlDeviceGetHandleByIndex_v2 quiet (uint (-1)) (Loc 4) session
             = inr (NVML_ERROR_INVALID_ARGUMENT, s') ∧ same_data s' session)
  ∧ reachable session ∧ 0 ≤ 3 < FAKE_GPU_COUNT
  ∧ heap session !! 4%nat = Some (ODevice DevNull)
  ∧ (∃ gpu s',
        g_fake_gpus session !! Z.to_nat 3 = Some gpu
        ∧ handle gpu = DevGpu (Z.to_nat 3)
        ∧ nvmlDeviceGetHandleByIndex_v2 quiet 3 (Loc 4) session = inr (NVML_SUCCESS, s')
        ∧ heap s' = <[4%nat := ODevice (handle gpu)]> (heap session)
        ∧ g_fake_gpus s' = g_fake_gpus session
        ∧ g_initialized s' = g_initialized session).
Proof.
  destruct handle_by_index as (H1 & H2 & H3 & H4).
  assert (Hr : 0 ≤ 3 < FAKE_GPU_COUNT) by (unfold FAKE_GPU_COUNT; lia).
  assert (Hn : - 2 ^ 31 ≤ -1 < 0) by lia.
  assert (Hc : FAKE_GPU_COUNT ≤ 4) by (unfold FAKE_GPU_COUNT; lia).
  split; [reflexivity|]. split; [exact (H1 quiet loaded 0 (Loc 4) eq_refl)|].
  split; [reflexivity|]. split; [exact Hc|].
  split; [exact (H2 quiet session 4 (Loc 4) eq_refl Hc)|].
  split; [exact Hn|].
  split; [exact (H3 quiet session (-1) (Loc 4) eq_refl Hn)|].
  split; [apply session_reachable|]. split; [exact Hr|].
  split; [reflexivity|].
  exact (H4 quiet session 3 4%nat DevNull session_reachable eq_refl Hr eq_refl).
Defined.

Lemma index_roundtrip_witness :
  reachable session ∧ initialized session = true ∧ 0 ≤ 3 < FAKE_GPU_COUNT
  ∧ heap session !! 4%nat = Some (ODevice DevNull)
  ∧ heap session !! 2%nat = Some (OWord 77)
  ∧ ∃ h s1 s2,
      nvmlDeviceGetHandleByIndex_v2 quiet 3 (Loc 4) session = inr (NVML_SUCCESS, s1)
      ∧ heap s1 !! 4%nat = Some (ODevice h)
      ∧ nvmlDeviceGetMinorNumber tracing h (Loc 2) s1 = inr (NVML_SUCCESS, s2)
      ∧ heap s2 !! 2%nat = Some (OWord 3).
Proof.
  assert (Hr : 0 ≤ 3 < FAKE_GPU_COUNT) by (unfold FAKE_GPU_COUNT; lia).
  split; [apply session_reachable|]. split; [reflexivity|]. split; [exact Hr|].
  split; [reflexivity|]. split; [reflexivity|].
  exact (index_roundtrip quiet tracing session 3 4%nat 2%nat DevNull 77
           session_reachable eq_refl Hr eq_refl eq_refl).
Defined.

Lemma uninitialized_queries_witness :
  is_query (DeviceGetName DevNull NULL 64) = true
  ∧ initialized closed = false
  ∧ (∃ s', exec tracing (DeviceGetName DevNull NULL 64) closed
             = inr (RCode NVML_ERROR_UNINITIALIZED, s')
           ∧ heap s' = heap closed ∧ same_data s' closed)
  ∧ is_query (DeviceGetCount (Loc 2)) = true
  ∧ initialized loaded = false
  ∧ (∃ s', exec quiet (DeviceGetCount (Loc 2)) loaded
             = inr (RCode NVML_ERROR_UNINITIALIZED, s')
           ∧ heap s' = heap loaded ∧ same_data s' loaded).
Proof.
  destruct uninitialized_queries as (_ & _ & H).
  split; [reflexivity|]. split; [reflexivity|].
  split; [exact (H tracing (DeviceGetName DevNull NULL 64) closed eq_refl eq_refl)|].
  split; [reflexivity|]. split; [reflexivity|].
  exact (H quiet (DeviceGetCount (Loc 2)) loaded eq_refl eq_refl).
Defined.

Lemma null_output_rejected_witness :
  initialized session = true
  ∧ checked_outputs (DeviceGetCudaComputeCapability (DevGpu 0) (Loc 2) NULL)
      = Some (Loc 2, NULL)
  ∧ (Loc 2 = NULL ∨ NULL = NULL)
  ∧ ∃ s', exec quiet (DeviceGetCudaComputeCapability (DevGpu 0) (Loc 2) NULL) session
            = inr (RCode NVML_ERROR_INVALID_ARGUMENT, s')
          ∧ heap s' = heap session ∧ same_data s' session.
Proof.
  split; [reflexivity|]. split; [reflexivity|]. split; [by right|].
  exact (null_output_rejected quiet
           (DeviceGetCudaComputeCapability (DevGpu 0) (Loc 2) NULL) session
           (Loc 2) NULL eq_refl eq_refl (or_intror eq_refl)).
Defined.

Lemma tracing_noninterference_witness :
  same_data session session
  ∧ same_result (exec quiet (DeviceGetName (DevGpu 1) (Loc 1) 64) session)
                (exec tracing (DeviceGetName (DevGpu 1) (Loc 1) 64) session).
Proof.
  assert (H : same_data session session) by (repeat split).
  split; [exact H|].
  exact (tracing_noninterference quiet tracing
           (DeviceGetName (DevGpu 1) (Loc 1) 64) session session H).
Defined.



(** * Further properties of the library *)

(** ** The registry and the flag *)

(** In every state the process reaches, the array has its four elements,
    the flag is 0 or 1, and while the flag is set the registry holds the
    four records of [nvmlInit_v2], whatever was called in between and however
    many sessions came before. *)
Theorem registry_invariant s :
  reachable s →
  length (g_fake_gpus s) = 4%nat
  ∧ (g_initialized s = 0 ∨ g_initialized s = 1)
  ∧ (initialized s = true →
     g_fake_gpus s = [fake_gpu 0; fake_gpu 1; fake_gpu 2; fake_gpu 3]).
Proof.
  intros Hs. destruct (reachable_registry_ok s Hs) as [Hlen Hflag].
  split; [exact Hlen|]. split.
  - destruct Hflag as [?|[? _]]; auto.
  - intros Hinit. apply initialized_true in Hinit.
    destruct Hflag as [?|[_ Hpop]]; [done|]. exact Hpop.
Qed.

Lemma registry_invariant_witness :
  reachable second_session ∧ initialized second_session = true
  ∧ length (g_fake_gpus second_session) = 4%nat
  ∧ (g_initialized second_session = 0 ∨ g_initialized second_session = 1)
  ∧ g_fake_gpus second_session = [fake_gpu 0; fake_gpu 1; fake_gpu 2; fake_gpu 3].
Proof.
  destruct (registry_invariant second_session second_session_reachable)
    as (Hlen & Hflag & Hreg).
  split; [apply second_session_reachable|]. split; [reflexivity|].
  split; [exact Hlen|]. split; [exact Hflag|]. exact (Hreg eq_refl).
Defined.

(** The records of two different devices differ in index, UUID, bus id,
    bus number and handle, and share the one name. *)
Theorem devices_distinct s i j gi gj :
  reachable s → initialized s = true →
  0 ≤ i < FAKE_GPU_COUNT → 0 ≤ j < FAKE_GPU_COUNT → i ≠ j →
  g_fake_gpus s !! Z.to_nat i = Some gi →
  g_fake_gpus s !! Z.to_nat j = Some gj →
  index gi ≠ index gj ∧ uuid gi ≠ uuid gj
  ∧ busId (pci gi) ≠ busId (pci gj) ∧ bus (pci gi) ≠ bus (pci gj)
  ∧ handle gi ≠ handle gj
  ∧ name gi = FAKE_GPU_NAME ∧ name gj = FAKE_GPU_NAME.
Proof.
  intros Hs Hflag Hi Hj Hne Hgi Hgj.
  rewrite (reachable_lookup s i Hs Hflag Hi) in Hgi.
  rewrite (reachable_lookup s j Hs Hflag Hj) in Hgj.
  injection Hgi as <-. injection Hgj as <-.
  unfold FAKE_GPU_COUNT in Hi, Hj.
  assert (Ei : i = 0 ∨ i = 1 ∨ i = 2 ∨ i = 3) by lia.
  assert (Ej : j = 0 ∨ j = 1 ∨ j = 2 ∨ j = 3) by lia.
  destruct Ei as [->|[->|[->| ->]]], Ej as [->|[->|[->| ->]]];
    try done; repeat split; discriminate.
Qed.

Lemma devices_distinct_witness :
  reachable session ∧ initialized session = true
  ∧ 0 ≤ 1 < FAKE_GPU_COUNT ∧ 0 ≤ 3 < FAKE_GPU_COUNT ∧ 1 ≠ 3
  ∧ g_fake_gpus session !! Z.to_nat 1 = Some (fake_gpu 1)
  ∧ g_fake_gpus session !! Z.to_nat 3 = Some (fake_gpu 3)
  ∧ uuid (fake_gpu 1) ≠ uuid (fake_gpu 3)
  ∧ handle (fake_gpu 1) ≠ handle (fake_gpu 3).
Proof.
  assert (H1 : 0 ≤ 1 < FAKE_GPU_COUNT) by (unfold FAKE_GPU_COUNT; lia).
  assert (H3 : 0 ≤ 3 < FAKE_GPU_COUNT) by (unfold FAKE_GPU_COUNT; lia).
  assert (Hne : 1 ≠ 3) by lia.
  destruct (devices_distinct session 1 3 (fake_gpu 1) (fake_gpu 3)
              session_reachable eq_refl H1 H3 Hne eq_refl eq_refl)
    as (_ & Hu & _ & _ & Hh & _).
  split; [apply session_reachable|]. split; [reflexivity|].
  split; [exact H1|]. split; [exact H3|]. split; [exact Hne|].
  split; [reflexivity|]. split; [reflexivity|]. split; [exact Hu|exact Hh].
Defined.

(** GetPciInfo on the handle issued for index [i] fills the caller's record
    with bus number [i + 1], a bus id that spells that bus number, domain and
    device 0 and the fixed device and subsystem ids; nothing else in the
    caller's memory changes. *)
Theorem pci_info_of_index w s i b v0 :
  reachable s → initialized s = true → 0 ≤ i < FAKE_GPU_COUNT →
  heap s !! b = Some (OPciInfo v0) →
  ∃ s' p,
    nvmlDeviceGetPciInfo w (DevGpu (Z.to_nat i)) (Loc b) s = inr (NVML_SUCCESS, s')
    ∧ heap s' = <[b := OPciInfo p]> (heap s)
    ∧ bus p = i + 1
    ∧ busId p = "00000000:0" +:+ string_of_int (bus p) +:+ ":00.0"
    ∧ domain p = 0 ∧ device p = 0
    ∧ pciDeviceId p = 0x1EB8 ∧ pciSubSystemId p = 0x12A210DE.
Proof.
  intros Hs Hflag Hi Hb.
  exists (logged w "nvmlDeviceGetPciInfo" "exit"
            (set_heap (<[b := OPciInfo (pci (fake_gpu i))]> (heap s))
               (logged w "nvmlDeviceGetPciInfo" "enter" s))), (pci (fake_gpu i)).
  split; [by eapply pci_info_run|]. split; [by rewrite logged_heap|].
  unfold FAKE_GPU_COUNT in Hi.
  assert (Ei : i = 0 ∨ i = 1 ∨ i = 2 ∨ i = 3) by lia.
  destruct Ei as [->|[->|[->| ->]]]; repeat split.
Qed.

Lemma pci_info_of_index_witness :
  reachable session ∧ initialized session = true ∧ 0 ≤ 2 < FAKE_GPU_COUNT
  ∧ heap session !! 5%nat = Some (OPciInfo zero_pci)
  ∧ ∃ s' p,
      nvmlDeviceGetPciInfo quiet (DevGpu (Z.to_nat 2)) (Loc 5) session
        = inr (NVML_SUCCESS, s')
      ∧ heap s' = <[5%nat := OPciInfo p]> (heap session)
      ∧ bus p = 2 + 1
      ∧ busId p = "00000000:0" +:+ string_of_int (bus p) +:+ ":00.0"
      ∧ domain p = 0 ∧ device p = 0
      ∧ pciDeviceId p = 0x1EB8 ∧ pciSubSystemId p = 0x12A210DE.
Proof.
  assert (H2 : 0 ≤ 2 < FAKE_GPU_COUNT) by (unfold FAKE_GPU_COUNT; lia).
  split; [apply session_reachable|]. split; [reflexivity|]. split; [exact H2|].
  split; [reflexivity|].
  exact (pci_info_of_index quiet session 2 5%nat zero_pci
           session_reachable eq_refl H2 eq_refl).
Defined.

Lemma count_run w s b v0 :
  initialized s = true → heap s !! b = Some (OWord v0) →
  nvmlDeviceGetCount_v2 w (Loc b) s =
    inr (NVML_SUCCESS,
         logged w "nvmlDeviceGetCount_v2" "exit"
           (set_heap (<[b := OWord 4]> (heap s))
              (logged w "nvmlDeviceGetCount_v2" "enter" s))).
Proof.
  intros Hflag Hb. unfold_entry. rewrite (flag_test _ Hflag). unfold_entry.
  erewrite store_word_Loc by (rewrite logged_heap; exact Hb).
  unfold_entry. by rewrite logged_heap.
Qed.

(** The count GetDeviceCount reports is the bound of GetHandleByIndex: with
    the count [n] just stored, a call for index [i] yields a handle exactly
    when [i < n]. *)
Theorem device_count_bounds_indexes w w' s b v0 dev h0 i :
  reachable s → initialized s = true →
  heap s !! b = Some (OWord v0) → heap s !! dev = Some (ODevice h0) →
  0 ≤ i →
  ∃ n s1,
    nvmlDeviceGetCount_v2 w (Loc b) s = inr (NVML_SUCCESS, s1)
    ∧ heap s1 !! b = Some (OWord n)
    ∧ ((∃ s2, nvmlDeviceGetHandleByIndex_v2 w' i (Loc dev) s1
                = inr (NVML_SUCCESS, s2))
       ↔ i < n).
Proof.
  intros Hs Hflag Hb Hdev Hi.
  pose proof (count_run w s b v0 Hflag Hb) as Hrun.
  set (s1 := logged w "nvmlDeviceGetCount_v2" "exit" _) in Hrun.
  assert (Hheap1 : heap s1 = <[b := OWord 4]> (heap s))
    by (unfold s1; by rewrite logged_heap).
  assert (Hs1 : reachable s1).
  { eapply (reachable_call w (DeviceGetCount (Loc b))); [exact Hs|].
    simpl. by apply code_run. }
  assert (Hflag1 : initialized s1 = true).
  { rewrite <- Hflag. unfold s1. rewrite initialized_logged.
    unfold initialized. simpl. by rewrite logged_initialized. }
  assert (Hdev1 : heap s1 !! dev = Some (ODevice h0)).
  { rewrite Hheap1, lookup_insert_ne; [done|]. intros ->. congruence. }
  exists 4, s1. split; [exact Hrun|].
  split; [by rewrite Hheap1, lookup_insert_eq|]. split.
  - intros [s2 H2].
    destruct (issued_handle _ _ _ _ _ Hs1 Hi H2) as (_ & _ & Hlt & _). exact Hlt.
  - intros Hlt. eexists. by eapply handle_by_index_run.
Qed.

Lemma device_count_bounds_indexes_witness :
  reachable session ∧ initialized session = true
  ∧ heap session !! 2%nat = Some (OWord 77)
  ∧ heap session !! 4%nat = Some (ODevice DevNull)
  ∧ 0 ≤ 4
  ∧ ∃ n s1,
      nvmlDeviceGetCount_v2 quiet (Loc 2) session = inr (NVML_SUCCESS, s1)
      ∧ heap s1 !! 2%nat = Some (OWord n)
      ∧ ((∃ s2, nvmlDeviceGetHandleByIndex_v2 tracing 4 (Loc 4) s1
                  = inr (NVML_SUCCESS, s2))
         ↔ 4 < n).
Proof.
  assert (H4 : 0 ≤ 4) by lia.
  split; [apply session_reachable|]. split; [reflexivity|].
  split; [reflexivity|]. split; [reflexivity|]. split; [exact H4|].
  exact (device_count_bounds_indexes quiet tracing session 2%nat 77 4%nat DevNull 4
           session_reachable eq_refl eq_refl eq_refl H4).
Defined.

(** ** String outputs, continued *)

Lemma c_string_app_NUL bs rest : c_string (c_string bs ++ NUL :: rest) = c_string bs.
Proof.
  induction bs as [|c bs IH]; simpl; [done|].
  destruct (Ascii.eqb c NUL) eqn:E; simpl; [done|]. by rewrite E, IH.
Qed.

(** The strings the library hands out hold no null byte and have at most
    15 bytes. *)
Lemma string_source_plain o :
  string_record_ok o →
  c_string (list_ascii_of_string (string_source o))
    = list_ascii_of_string (string_source o)
  ∧ (strlen (string_source o) ≤ 15)%nat.
Proof.
  destruct o as [|i|i]; simpl; intros Hi; [split; [reflexivity|]; vm_compute; lia| |];
    unfold FAKE_GPU_COUNT in Hi;
    (assert (Ei : i = 0 ∨ i = 1 ∨ i = 2 ∨ i = 3) by lia);
    destruct Ei as [->|[->|[->| ->]]]; (split; [reflexivity|vm_compute; lia]).
Qed.

(** With a length above the length of the string, 16 or more in every
    case and so with the documented buffer sizes 64 and 80, the caller reads
    the complete string back from its buffer: the bytes before the first
    null are the driver version, the device name or the UUID in full. *)
Theorem string_output_reads_back w s o b old n :
  reachable s → initialized s = true → string_record_ok o →
  heap s !! b = Some (OChars old) → (Z.to_nat n ≤ length old)%nat →
  16 ≤ n →
  ∃ s' new,
    exec w (string_call o (Loc b) n) s = inr (RCode NVML_SUCCESS, s')
    ∧ heap s' = <[b := OChars new]> (heap s)
    ∧ c_string new = list_ascii_of_string (string_source o)
    ∧ terminated_within (Z.to_nat n) new.
Proof.
  intros Hs Hflag Ho Hb Hn Hlen.
  destruct (string_source_plain o Ho) as [Hplain H15].
  assert (∃ s', exec w (string_call o (Loc b) n) s = inr (RCode NVML_SUCCESS, s')
                ∧ heap s' = <[b := OChars (strncpy_bytes (string_source o) (Z.to_nat n)
                                             ++ drop (Z.to_nat n) old)]> (heap s))
    as (s' & Hrun & Hheap).
  { destruct o as [|i|i]; simpl in Ho |- *; eexists.
    - split; [by apply code_run, driver_version_run|]. by rewrite logged_heap.
    - split; [by apply code_run, name_run|]. by rewrite logged_heap.
    - split; [by apply code_run, uuid_run|]. by rewrite logged_heap. }
  exists s', (strncpy_bytes (string_source o) (Z.to_nat n) ++ drop (Z.to_nat n) old).
  split; [exact Hrun|]. split; [exact Hheap|]. split.
  - unfold strncpy_bytes, strlen in *.
    set (cs := c_string (list_ascii_of_string (string_source o))) in *.
    rewrite take_ge by lia.
    destruct (Z.to_nat n - length cs)%nat as [|k] eqn:Ek; [lia|]. simpl.
    rewrite <- app_assoc. simpl. unfold cs at 1.
    rewrite c_string_app_NUL. exact Hplain.
  - apply strncpy_bytes_terminated. lia.
Qed.

Lemma string_output_reads_back_witness :
  reachable session ∧ initialized session = true
  ∧ string_record_ok (DeviceUUIDOf 3)
  ∧ heap session !! 1%nat = Some (OChars (replicate 64 "X"%char))
  ∧ (Z.to_nat 64 ≤ length (replicate 64 "X"%char))%nat
  ∧ 16 ≤ 64
  ∧ ∃ s' new,
      exec quiet (string_call (DeviceUUIDOf 3) (Loc 1) 64) session
        = inr (RCode NVML_SUCCESS, s')
      ∧ heap s' = <[1%nat := OChars new]> (heap session)
      ∧ c_string new = list_ascii_of_string (string_source (DeviceUUIDOf 3))
      ∧ terminated_within (Z.to_nat 64) new.
Proof.
  assert (Ho : string_record_ok (DeviceUUIDOf 3))
    by (simpl; unfold FAKE_GPU_COUNT; lia).
  assert (Hn : (Z.to_nat 64 ≤ length (replicate 64 "X"%char))%nat)
    by (rewrite length_replicate; lia).
  assert (H16 : 16 ≤ 64) by lia.
  split; [apply session_reachable|]. split; [reflexivity|]. split; [exact Ho|].
  split; [reflexivity|]. split; [exact Hn|]. split; [exact H16|].
  exact (string_output_reads_back quiet session (DeviceUUIDOf 3) 1%nat
           (replicate 64 "X"%char) 64 session_reachable eq_refl Ho eq_refl Hn H16).
Defined.

(** [strncpy] stores [length] bytes whatever the length of the string (it
    pads with nulls), so a length above the real capacity of the buffer
    overruns the buffer even though the string itself would fit. *)
Theorem string_output_overrun w s o b old n :
  reachable s → initialized s = true → string_record_ok o →
  heap s !! b = Some (OChars old) → (length old < Z.to_nat n)%nat →
  exec w (string_call o (Loc b) n) s = inl BufferOverflow.
Proof.
  intros Hs Hflag Ho Hb Hn.
  assert (Hcopy : ∀ src s0, heap s0 = heap s →
            strncpy (Loc b) src n s0 = inl BufferOverflow).
  { intros src s0 E. simpl. rewrite E, Hb.
    by destruct (Nat.leb_spec (Z.to_nat n) (length old)); [lia|]. }
  destruct o as [|i|i]; simpl in Ho |- *; unfold_entry;
    rewrite (flag_test _ Hflag); unfold_entry;
    rewrite ?(deref_issued s i Hs Hflag Ho) by apply logged_fake_gpus;
    rewrite ?bind_run, Hcopy by apply logged_heap; reflexivity.
Qed.

Lemma string_output_overrun_witness :
  reachable session ∧ initialized session = true
  ∧ string_record_ok DriverVersion
  ∧ heap session !! 0%nat = Some (OChars (replicate 4 "X"%char))
  ∧ (length (replicate 4 "X"%char) < Z.to_nat 80)%nat
  ∧ exec quiet (string_call DriverVersion (Loc 0) 80) session = inl BufferOverflow.
Proof.
  assert (Hn : (length (replicate 4 "X"%char) < Z.to_nat 80)%nat)
    by (rewrite length_replicate; lia).
  split; [apply session_reachable|]. split; [reflexivity|]. split; [exact I|].
  split; [reflexivity|]. split; [exact Hn|].
  exact (string_output_overrun quiet session DriverVersion 0%nat
           (replicate 4 "X"%char) 80 session_reachable eq_refl I eq_refl Hn).
Defined.

(** With length 0 a string output succeeds and the caller's memory is
    exactly as it was: not even a terminator is stored. *)
Theorem string_output_zero_length w s o b old :
  reachable s → initialized s = true → string_record_ok o →
  heap s !! b = Some (OChars old) →
  ∃ s', exec w (string_call o (Loc b) 0) s = inr (RCode NVML_SUCCESS, s')
        ∧ same_data s' s.
Proof.
  intros Hs Hflag Ho Hb.
  assert (Hn : (Z.to_nat 0 ≤ length old)%nat) by (simpl; lia).
  assert (Hid : <[b := OChars (strncpy_bytes (string_source o) (Z.to_nat 0)
                                 ++ drop (Z.to_nat 0) old)]> (heap s) = heap s).
  { apply insert_id. by rewrite Hb. }
  destruct o as [|i|i]; simpl in Ho, Hid |- *; eexists.
  - split; [by apply code_run, driver_version_run|].
    rewrite logged_same_data. unfold same_data. simpl.
    rewrite logged_fake_gpus, logged_initialized. by rewrite Hid.
  - split; [by apply code_run, name_run|].
    rewrite logged_same_data. unfold same_data. simpl.
    rewrite logged_fake_gpus, logged_initialized. by rewrite Hid.
  - split; [by apply code_run, uuid_run|].
    rewrite logged_same_data. unfold same_data. simpl.
    rewrite logged_fake_gpus, logged_initialized. by rewrite Hid.
Qed.

Lemma string_output_zero_length_witness :
  reachable session ∧ initialized session = true
  ∧ string_record_ok (DeviceNameOf 0)
  ∧ heap session !! 0%nat = Some (OChars (replicate 4 "X"%char))
  ∧ ∃ s', exec tracing (string_call (DeviceNameOf 0) (Loc 0) 0) session
            = inr (RCode NVML_SUCCESS, s')
          ∧ same_data s' session.
Proof.
  assert (Ho : string_record_ok (DeviceNameOf 0))
    by (simpl; unfold FAKE_GPU_COUNT; lia).
  split; [apply session_reachable|]. split; [reflexivity|]. split; [exact Ho|].
  split; [reflexivity|].
  exact (string_output_zero_length tracing session (DeviceNameOf 0) 0%nat
           (replicate 4 "X"%char) session_reachable eq_refl Ho eq_refl).
Defined.

(** ** What a call may write *)

Lemma same_kind_refl o : same_kind o o.
Proof. by destruct o. Qed.

Lemma same_kind_trans o1 o2 o3 : same_kind o1 o2 → same_kind o2 o3 → same_kind o1 o3.
Proof. destruct o1, o2, o3; simpl; try done. congruence. Qed.

Lemma heap_frame_same ps s s' : heap s' = heap s → heap_frame ps s s'.
Proof.
  intros E. split; [by rewrite E|]. intros b. rewrite E.
  destruct (heap s !! b); [apply same_kind_refl|done].
Qed.

Lemma heap_frame_trans ps s1 s2 s3 :
  heap_frame ps s1 s2 → heap_frame ps s2 s3 → heap_frame ps s1 s3.
Proof.
  intros [H1 K1] [H2 K2]. split.
  - intros b Hb. by rewrite H2, H1.
  - intros b. specialize (K1 b). specialize (K2 b).
    destruct (heap s1 !! b), (heap s2 !! b), (heap s3 !! b); try done.
    by eapply same_kind_trans.
Qed.

Lemma heap_frame_insert ps s b o o' :
  Loc b ∈ ps → heap s !! b = Some o → same_kind o o' →
  heap_frame ps s (set_heap (<[b := o']> (heap s)) s).
Proof.
  intros Hin Hb Hk. split; simpl.
  - intros b' Hb'. rewrite lookup_insert_ne; [done|]. by intros ->.
  - intros b'. destruct (decide (b = b')) as [<-|Hne].
    + by rewrite Hb, lookup_insert_eq.
    + rewrite lookup_insert_ne by done.
      destruct (heap s !! b'); [apply same_kind_refl|done].
Qed.

Section WritesWithin.
Context {A B : Type} (ps : list ptr).

Lemma writes_within_ret (a : A) : writes_within ps (mret a).
Proof. intros s a' s' [= <- <-]. by apply heap_frame_same. Qed.

Lemma writes_within_raise e : writes_within ps (raise (A:=A) e).
Proof. intros s a' s'. discriminate. Qed.

Lemma writes_within_gets (f : state → A) : writes_within ps (gets f).
Proof. intros s a' s' [= <- <-]. by apply heap_frame_same. Qed.

Lemma writes_within_bind (m : M A) (f : A → M B) :
  writes_within ps m → (∀ a, writes_within ps (f a)) → writes_within ps (m ≫= f).
Proof.
  intros Hm Hf s b s'. rewrite bind_run.
  destruct (m s) as [e|[a s1]] eqn:E; [done|]. intros H.
  eapply heap_frame_trans; [exact (Hm _ _ _ E)|exact (Hf a _ _ _ H)].
Qed.
End WritesWithin.

Lemma writes_within_modify ps f :
  (∀ s, heap (f s) = heap s) → writes_within ps (modify f).
Proof. intros Hf s a s' [= <- <-]. by apply heap_frame_same. Qed.

Lemma writes_within_LOG ps w f msg : writes_within ps (LOG w f msg).
Proof.
  intros s a s'. rewrite LOG_run. intros [= <- <-].
  apply heap_frame_same, logged_heap.
Qed.

Lemma writes_within_store_word ps p v : p ∈ ps → writes_within ps (store_word p v).
Proof.
  intros Hin s a s'. destruct p as [|b]; [done|]. simpl.
  destruct (heap s !! b) as [[]|] eqn:E; try done. intros [= <- <-].
  by eapply heap_frame_insert.
Qed.

Lemma writes_within_store_device ps p h : p ∈ ps → writes_within ps (store_device p h).
Proof.
  intros Hin s a s'. destruct p as [|b]; [done|]. simpl.
  destruct (heap s !! b) as [[]|] eqn:E; try done. intros [= <- <-].
  by eapply heap_frame_insert.
Qed.

Lemma writes_within_memcpy_pci ps p v : p ∈ ps → writes_within ps (memcpy_pci p v).
Proof.
  intros Hin s a s'. destruct p as [|b]; [done|]. simpl.
  destruct (heap s !! b) as [[]|] eqn:E; try done. intros [= <- <-].
  by eapply heap_frame_insert.
Qed.

Lemma writes_within_strncpy ps p src n : p ∈ ps → writes_within ps (strncpy p src n).
Proof.
  intros Hin s a s'. destruct p as [|b]; [done|]. simpl.
  destruct (heap s !! b) as [[| | |old|]|] eqn:E; try done.
  destruct (Nat.leb_spec (Z.to_nat n) (length old)) as [Hn|]; [|done].
  intros [= <- <-]. eapply heap_frame_insert; [done..|].
  simpl. symmetry. by apply strncpy_frame.
Qed.

Lemma writes_within_array_get ps i : writes_within ps (array_get i).
Proof.
  intros s a s'. unfold array_get.
  destruct (g_fake_gpus s !! i); [|done]. intros [= <- <-].
  by apply heap_frame_same.
Qed.

Lemma writes_within_object_get ps b : writes_within ps (object_get b).
Proof.
  intros s a s'. unfold object_get.
  destruct (heap s !! b) as [[]|]; try done. intros [= <- <-].
  by apply heap_frame_same.
Qed.

Lemma writes_within_deref_gpu ps d : writes_within ps (deref_gpu d).
Proof.
  destruct d; simpl;
    auto using writes_within_array_get, writes_within_object_get,
      writes_within_raise.
Qed.

Ltac writes_within_tac :=
  repeat first
    [ apply writes_within_bind; [|intros ?]
    | match goal with |- writes_within _ (if ?b then _ else _) => destruct b end
    | apply writes_within_LOG | apply writes_within_ret
    | apply writes_within_raise | apply writes_within_gets
    | apply writes_within_array_get | apply writes_within_deref_gpu
    | apply writes_within_modify; reflexivity
    | apply writes_within_store_word; set_solver
    | apply writes_within_store_device; set_solver
    | apply writes_within_memcpy_pci; set_solver
    | apply writes_within_strncpy; set_solver ].

Lemma exec_writes_within w c : writes_within (pointer_args c) (exec w c).
Proof.
  destruct c; unfold exec, code, nvmlInit_v2, nvmlShutdown, nvmlErrorString,
    nvmlSystemGetDriverVersion, nvmlSystemGetCudaDriverVersion,
    nvmlDeviceGetCount_v2, nvmlDeviceGetHandleByIndex_v2, nvmlDeviceGetName,
    nvmlDeviceGetUUID, nvmlDeviceGetPciInfo,
    nvmlDeviceGetCudaComputeCapability, nvmlDeviceGetBrand,
    nvmlDeviceGetMinorNumber, nvmlDeviceGetMigCapability, nvmlDeviceGetMigMode;
    simpl pointer_args; writes_within_tac.
Qed.

(** A call that returns has changed the caller's memory only behind the
    pointers it was given: every other object is as it was, no object has
    appeared or vanished, and every object, written or not, has kept its
    type and every buffer its size. *)
Theorem writes_only_through_arguments w c s r s' :
  exec w c s = inr (r, s') →
  (∀ b, Loc b ∉ pointer_args c → heap s' !! b = heap s !! b)
  ∧ (∀ b o, heap s !! b = Some o →
       ∃ o', heap s' !! b = Some o' ∧ same_kind o o')
  ∧ (∀ b, heap s !! b = None → heap s' !! b = None).
Proof.
  intros Hexec. destruct (exec_writes_within w c s r s' Hexec) as [Hout Hkind].
  split; [exact Hout|]. split.
  - intros b o Hb. specialize (Hkind b). rewrite Hb in Hkind.
    destruct (heap s' !! b) as [o'|]; [|done]. by exists o'.
  - intros b Hb. specialize (Hkind b). rewrite Hb in Hkind.
    by destruct (heap s' !! b).
Qed.

Lemma writes_only_through_arguments_witness :
  exec quiet (DeviceGetName (DevGpu 1) (Loc 0) 4) session
    = inr (RCode NVML_SUCCESS, after quiet (DeviceGetName (DevGpu 1) (Loc 0) 4) session)
  ∧ heap (after quiet (DeviceGetName (DevGpu 1) (Loc 0) 4) session) !! 1%nat
      = heap session !! 1%nat
  ∧ ∃ o', heap (after quiet (DeviceGetName (DevGpu 1) (Loc 0) 4) session) !! 0%nat
            = Some o'
          ∧ same_kind (OChars (replicate 4 "X"%char)) o'.
Proof.
  destruct (writes_only_through_arguments quiet
              (DeviceGetName (DevGpu 1) (Loc 0) 4) session (RCode NVML_SUCCESS)
              (after quiet (DeviceGetName (DevGpu 1) (Loc 0) 4) session) eq_refl)
    as (Hout & Hkind & _).
  split; [reflexivity|]. split.
  - apply Hout. simpl. by intros [=]%list_elem_of_singleton.
  - exact (Hkind 0%nat _ eq_refl).
Defined.

(** ** What a failed call leaves behind, and what a call traces *)

Lemma stderr_logged w f msg s :
  stderr (logged w f msg s) = stderr s ++ (if traced w then [line w f msg] else []).
Proof.
  unfold logged, traced, line. destruct (getenv w _); simpl; [done|].
  by rewrite app_nil_r.
Qed.

Lemma store_word_stderr p v s a s' :
  store_word p v s = inr (a, s') → stderr s' = stderr s.
Proof. intros H. by apply store_word_inv in H as (b & v0 & _ & _ & ->). Qed.

Lemma store_device_stderr p h s a s' :
  store_device p h s = inr (a, s') → stderr s' = stderr s.
Proof.
  destruct p as [|b]; [done|]. simpl.
  destruct (heap s !! b) as [[]|]; try done. by intros [= <- <-].
Qed.

Lemma memcpy_pci_stderr p v s a s' :
  memcpy_pci p v s = inr (a, s') → stderr s' = stderr s.
Proof.
  destruct p as [|b]; [done|]. simpl.
  destruct (heap s !! b) as [[]|]; try done. by intros [= <- <-].
Qed.

Lemma strncpy_stderr p src n s a s' :
  strncpy p src n s = inr (a, s') → stderr s' = stderr s.
Proof.
  destruct p as [|b]; [done|]. simpl.
  destruct (heap s !! b) as [[]|]; try done.
  destruct (_ <=? _)%nat; [|done]. by intros [= <- <-].
Qed.

Lemma array_get_stderr i s a s' :
  array_get i s = inr (a, s') → stderr s' = stderr s.
Proof.
  unfold array_get. destruct (g_fake_gpus s !! i); [|done]. by intros [= <- <-].
Qed.

Lemma deref_gpu_stderr d s a s' :
  deref_gpu d s = inr (a, s') → stderr s' = stderr s.
Proof. intros H. by apply deref_gpu_state in H as ->. Qed.

(** Splits the goal on the outcome of each memory access in turn, keeping
    for each one that returns the fact that it printed nothing. *)
Ltac case_accesses :=
  repeat match goal with
    | |- context [match ?m ?st with inl _ => _ | inr _ => _ end] =>
        let E := fresh "E" in
        destruct (m st) as [?|[? ?]] eqn:E;
        [ try discriminate
        | first [ apply store_word_stderr in E | apply store_device_stderr in E
                | apply memcpy_pci_stderr in E | apply strncpy_stderr in E
                | apply array_get_stderr in E | apply deref_gpu_stderr in E ] ];
        unfold_entry
    end.

(** Splits the goal on the tests an entry point makes of the flag and of
    its arguments. *)
Ltac case_tests s :=
  destruct (g_initialized s =? 0); unfold_entry;
  try match goal with
    | |- context [if ?b then _ else _] => destruct b; unfold_entry
    end.

(** A call that returns anything but [NVML_SUCCESS] (an error code, or the
    string of [nvmlErrorString]) has changed no data: the flag, the registry
    and the caller's memory are as they were. *)
Theorem failed_call_changes_nothing w c s r s' :
  exec w c s = inr (r, s') → r ≠ RCode NVML_SUCCESS → same_data s' s.
Proof.
  intros Hexec Hne. revert Hexec.
  destruct c; unfold_entry; try case_tests s; case_accesses;
    intros [= <- <-]; try done; by rewrite ?logged_same_data.
Qed.

Lemma failed_call_changes_nothing_witness :
  exec tracing (DeviceGetHandleByIndex 7 (Loc 4)) session
    = inr (RCode NVML_ERROR_INVALID_ARGUMENT,
           after tracing (DeviceGetHandleByIndex 7 (Loc 4)) session)
  ∧ RCode NVML_ERROR_INVALID_ARGUMENT ≠ RCode NVML_SUCCESS
  ∧ same_data (after tracing (DeviceGetHandleByIndex 7 (Loc 4)) session) session.
Proof.
  assert (Hne : RCode NVML_ERROR_INVALID_ARGUMENT ≠ RCode NVML_SUCCESS) by discriminate.
  split; [reflexivity|]. split; [exact Hne|].
  exact (failed_call_changes_nothing tracing (DeviceGetHandleByIndex 7 (Loc 4))
           session _ _ eq_refl Hne).
Defined.

(** What a call prints.  Without [FAKE_NVML_LOG] a call adds nothing to
    standard error.  With it, a call that returns [NVML_SUCCESS] adds its
    "enter" line and its "exit" line, a call that returns an error code adds
    its "enter" line only, and [nvmlErrorString] adds "enter" and the code it
    translates; every line carries the name of the versioned function, the
    clock and the process id, and what was on standard error before stays. *)
Theorem call_trace w c s r s' :
  exec w c s = inr (r, s') → stderr s' = stderr s ++ trace_of w c r.
Proof.
  destruct c; unfold_entry; try case_tests s; case_accesses;
    intros [= <- <-]; rewrite ?stderr_logged; simpl;
    repeat match goal with E : stderr _ = _ |- _ => rewrite E; clear E end;
    rewrite ?stderr_logged; unfold trace_of; simpl;
    destruct (traced w); simpl; rewrite <- ?app_assoc, ?app_nil_r; reflexivity.
Qed.

Lemma call_trace_witness :
  exec tracing Shutdown loaded
    = inr (RCode NVML_ERROR_UNINITIALIZED, after tracing Shutdown loaded)
  ∧ stderr (after tracing Shutdown loaded)
    = stderr loaded ++ [line tracing "nvmlShutdown" "enter"].
Proof.
  split; [reflexivity|].
  exact (call_trace tracing Shutdown loaded _ _ eq_refl).
Defined.

(** ** Capability queries *)

(** With the flag set and two valid output cells, GetComputeCapability
    stores 7 and then 5, and GetMigCapability and GetMigMode store 0 and 0,
    whatever the handle is (it is never looked at).  The stores are made in
    order, so when both pointers address one cell it is left holding the
    second value. *)
Theorem capability_outputs w d s a b va vb :
  initialized s = true →
  heap s !! a = Some (OWord va) → heap s !! b = Some (OWord vb) →
  (∃ s', nvmlDeviceGetCudaComputeCapability w d (Loc a) (Loc b) s
           = inr (NVML_SUCCESS, s')
         ∧ heap s' = <[b := OWord 5]> (<[a := OWord 7]> (heap s)))
  ∧ (∃ s', nvmlDeviceGetMigCapability w d (Loc a) (Loc b) s
             = inr (NVML_SUCCESS, s')
           ∧ heap s' = <[b := OWord 0]> (<[a := OWord 0]> (heap s)))
  ∧ (∃ s', nvmlDeviceGetMigMode w d (Loc a) (Loc b) s
             = inr (NVML_SUCCESS, s')
           ∧ heap s' = <[b := OWord NVML_FEATURE_DISABLED]>
                         (<[a := OWord NVML_FEATURE_DISABLED]> (heap s))).
Proof.
  intros Hflag Ha Hb.
  assert (Hsecond : ∀ v, ∃ vb', <[a := OWord v]> (heap s) !! b = Some (OWord vb')).
  { intros v. destruct (decide (a = b)) as [->|Hne].
    - exists v. by rewrite lookup_insert_eq.
    - exists vb. by rewrite lookup_insert_ne. }
  repeat split.
  - destruct (Hsecond 7) as [vb' Hb']. eexists. split.
    + unfold_entry. rewrite (flag_test _ Hflag).
      change (bool_decide (Loc a = NULL) || bool_decide (Loc b = NULL)) with false.
      unfold_entry.
      erewrite store_word_Loc by (rewrite logged_heap; exact Ha).
      unfold_entry.
      erewrite store_word_Loc by (simpl; rewrite logged_heap; exact Hb').
      unfold_entry. reflexivity.
    + rewrite logged_heap. simpl. by rewrite logged_heap.
  - destruct (Hsecond 0) as [vb' Hb']. eexists. split.
    + unfold_entry. rewrite (flag_test _ Hflag).
      change (bool_decide (Loc a = NULL) || bool_decide (Loc b = NULL)) with false.
      unfold_entry.
      erewrite store_word_Loc by (rewrite logged_heap; exact Ha).
      unfold_entry.
      erewrite store_word_Loc by (simpl; rewrite logged_heap; exact Hb').
      unfold_entry. reflexivity.
    + rewrite logged_heap. simpl. by rewrite logged_heap.
  - destruct (Hsecond 0) as [vb' Hb']. eexists. split.
    + unfold_entry. rewrite (flag_test _ Hflag).
      change (bool_decide (Loc a = NULL) || bool_decide (Loc b = NULL)) with false.
      unfold_entry.
      erewrite store_word_Loc by (rewrite logged_heap; exact Ha).
      unfold_entry.
      erewrite store_word_Loc by (simpl; rewrite logged_heap; exact Hb').
      unfold_entry. reflexivity.
    + rewrite logged_heap. simpl. by rewrite logged_heap.
Qed.

Lemma capability_outputs_witness :
  initialized session = true
  ∧ heap session !! 2%nat = Some (OWord 77)
  ∧ (∃ s', nvmlDeviceGetCudaComputeCapability quiet DevNull (Loc 2) (Loc 2) session
             = inr (NVML_SUCCESS, s')
           ∧ heap s' = <[2%nat := OWord 5]> (<[2%nat := OWord 7]> (heap session))).
Proof.
  split; [reflexivity|]. split; [reflexivity|].
  exact (proj1 (capability_outputs quiet DevNull session 2%nat 2%nat 77 77
                  eq_refl eq_refl eq_refl)).
Defined.

(** ** Translation of error codes, continued *)

(** A label other than the generic one identifies its code: the ten
    enumerators the [switch] handles have pairwise different labels. *)
Theorem error_label_identifies_code r1 r2 :
  error_label (nvmlReturn_code r1) ≠ "Unknown Error"%string →
  error_label (nvmlReturn_code r1) = error_label (nvmlReturn_code r2) →
  r1 = r2.
Proof. destruct r1, r2; intros Hne Heq; try done; discriminate Heq. Qed.

Lemma error_label_identifies_code_witness :
  error_label (nvmlReturn_code NVML_ERROR_NOT_FOUND) ≠ "Unknown Error"%string
  ∧ error_label (nvmlReturn_code NVML_ERROR_NOT_FOUND) = error_label 6
  ∧ NVML_ERROR_NOT_FOUND = NVML_ERROR_NOT_FOUND.
Proof.
  assert (Hne : error_label (nvmlReturn_code NVML_ERROR_NOT_FOUND)
                  ≠ "Unknown Error"%string) by discriminate.
  split; [exact Hne|]. split; [reflexivity|].
  exact (error_label_identifies_code NVML_ERROR_NOT_FOUND NVML_ERROR_NOT_FOUND
           Hne eq_refl).
Defined.

(** For an integer that is no enumerator's value, negative ones and the
    gaps 11 and 12 among them, [nvmlErrorString] returns the generic label;
    it does so in any state, with the flag set or not, and changes no data. *)
Theorem error_string_unrecognized w result s :
  (∀ r, result ≠ nvmlReturn_code r) →
  ∃ s', nvmlErrorString w result s = inr ("Unknown Error"%string, s')
        ∧ same_data s' s.
Proof.
  intros H. destruct (error_string_run w result s) as (s' & Hrun & Hsame).
  exists s'. split; [|exact Hsame].
  by rewrite Hrun, (error_label_unrecognized result H).
Qed.

Lemma error_string_unrecognized_witness :
  (∀ r, -1 ≠ nvmlReturn_code r)
  ∧ ∃ s', nvmlErrorString tracing (-1) loaded = inr ("Unknown Error"%string, s')
          ∧ same_data s' loaded.
Proof.
  assert (H : ∀ r, -1 ≠ nvmlReturn_code r) by (intros r; by destruct r).
  split; [exact H|].
  exact (error_string_unrecognized tracing (-1) loaded H).
Defined.

(** ** Sequences of calls *)

Lemma exec_flag w c s r s' :
  exec w c s = inr (r, s') → initialized s' = flag_after (initialized s) c.
Proof.
  intros Hexec.
  destruct (decide (c = Init)) as [->|Hinit];
    [|destruct (decide (c = Shutdown)) as [->|Hshut]].
  - revert Hexec. unfold exec, code. rewrite bind_run, init_run. unfold initialized.
    destruct (g_initialized s =? 0) eqn:E; intros [= <- <-];
      rewrite logged_initialized; simpl; rewrite ?logged_initialized, ?E; done.
  - revert Hexec. unfold exec, code. rewrite bind_run, shutdown_run.
    unfold initialized.
    destruct (g_initialized s =? 0) eqn:E; intros [= <- <-];
      rewrite logged_initialized; simpl; rewrite ?logged_initialized, ?E; done.
  - destruct (exec_keeps_static w c Hinit Hshut _ _ _ Hexec) as [_ E].
    unfold initialized. rewrite E. by destruct c.
Qed.

(** After any sequence of calls that runs to its end, the flag is what the
    last Initialize or Shutdown in the sequence made it, whether that call
    succeeded or failed, and what it was before when there was none; and
    every call has returned one value. *)
Theorem run_flag calls s rs s' :
  run calls s = inr (rs, s') →
  initialized s' = foldl flag_after (initialized s) (calls.*2)
  ∧ length rs = length calls.
Proof.
  revert s rs s'. induction calls as [|[w c] calls IH]; intros s rs s'.
  - intros [= <- <-]. done.
  - simpl. rewrite bind_run. destruct (exec w c s) as [e|[r s1]] eqn:E; [done|].
    rewrite bind_run. destruct (run calls s1) as [e|[rs1 s2]] eqn:E'; [done|].
    intros [= <- <-]. destruct (IH _ _ _ E') as [Hflag Hlen].
    rewrite Hflag, (exec_flag _ _ _ _ _ E). simpl. by rewrite Hlen.
Qed.

Lemma run_flag_witness :
  run sample_calls loaded
    = inr ([RCode NVML_SUCCESS; RCode NVML_SUCCESS; RCode NVML_SUCCESS;
            RCode NVML_ERROR_UNINITIALIZED; RString "Uninitialized"], sample_end)
  ∧ initialized sample_end
    = foldl flag_after (initialized loaded) (sample_calls.*2)
  ∧ initialized sample_end = false.
Proof.
  split; [reflexivity|]. split; [|reflexivity].
  exact (proj1 (run_flag sample_calls loaded
                  [RCode NVML_SUCCESS; RCode NVML_SUCCESS; RCode NVML_SUCCESS;
                   RCode NVML_ERROR_UNINITIALIZED; RString "Uninitialized"]
                  sample_end eq_refl)).
Defined.

Lemma run_agree calls1 calls2 :
  calls1.*2 = calls2.*2 → agree (run calls1) (run calls2).
Proof.
  revert calls2. induction calls1 as [|[w1 c1] calls1 IH];
    intros [|[w2 c2] calls2] Hcalls; try discriminate Hcalls.
  - apply agree_ret.
  - injection Hcalls as -> Hrest. simpl.
    apply agree_bind; [apply exec_agree|]. intros r.
    apply agree_bind; [by apply IH|]. intros rs. apply agree_ret.
Qed.

(** Tracing does not leak into a sequence of calls either: two runs of
    the same calls, each call under any setting of [FAKE_NVML_LOG], from
    states with the same data fault at the same call with the same fault or
    return the same values and end with the same data. *)
Theorem run_noninterference calls1 calls2 s1 s2 :
  calls1.*2 = calls2.*2 → same_data s1 s2 →
  same_result (run calls1 s1) (run calls2 s2).
Proof. intros Hcalls Hdata. by apply run_agree. Qed.

Lemma run_noninterference_witness :
  [(quiet, Init); (quiet, DeviceGetName (DevGpu 0) (Loc 0) 4)].*2
    = [(tracing, Init); (quiet, DeviceGetName (DevGpu 0) (Loc 0) 4)].*2
  ∧ same_data loaded loaded
  ∧ same_result
      (run [(quiet, Init); (quiet, DeviceGetName (DevGpu 0) (Loc 0) 4)] loaded)
      (run [(tracing, Init); (quiet, DeviceGetName (DevGpu 0) (Loc 0) 4)] loaded).
Proof.
  assert (H : same_data loaded loaded) by (repeat split).
  split; [reflexivity|]. split; [exact H|].
  exact (run_noninterference
           [(quiet, Init); (quiet, DeviceGetName (DevGpu 0) (Loc 0) 4)]
           [(tracing, Init); (quiet, DeviceGetName (DevGpu 0) (Loc 0) 4)]
           loaded loaded eq_refl H).
Defined.

(** * Properties of the kernel module *)

(** ** Reading the version file *)

Lemma sizeof_version : sizeof_g_fake_version_string = 28.
Proof. reflexivity. Qed.

Lemma version_read_cases usr_buf count pos ret usr_buf' pos' :
  0 ≤ count →
  proc_version_read usr_buf count pos = (ret, usr_buf', pos') →
  length usr_buf' = length usr_buf
  ∧ ((pos < 0 ∧ ret = - EINVAL ∧ usr_buf' = usr_buf ∧ pos' = pos)
     ∨ (0 ≤ pos ∧ (28 ≤ pos ∨ count = 0)
        ∧ ret = 0 ∧ usr_buf' = usr_buf ∧ pos' = pos)
     ∨ (0 ≤ pos < 28 ∧ 0 < count ∧ usr_buf = []
        ∧ ret = - EFAULT ∧ usr_buf' = usr_buf ∧ pos' = pos)
     ∨ (0 ≤ pos < 28 ∧ 0 < ret
        ∧ ret = Z.min (Z.min count (28 - pos)) (Z.of_nat (length usr_buf))
        ∧ pos' = pos + ret
        ∧ take (Z.to_nat ret) usr_buf'
            = take (Z.to_nat ret) (drop (Z.to_nat pos) g_fake_version_bytes)
        ∧ drop (Z.to_nat ret) usr_buf' = drop (Z.to_nat ret) usr_buf)).
Proof.
  intros Hcount. unfold proc_version_read, simple_read_from_buffer.
  rewrite sizeof_version.
  destruct (Z.ltb_spec pos 0) as [Hneg|Hpos].
  { intros [= <- <- <-]. split; [done|]. left. done. }
  destruct (Z.geb_spec pos 28) as [Hend|Hin]; simpl.
  { intros [= <- <- <-]. split; [done|]. right; left.
    split; [done|]. split; [left; lia|done]. }
  destruct (Z.eqb_spec count 0) as [->|Hnz].
  { intros [= <- <- <-]. split; [done|]. right; left.
    split; [done|]. split; [by right|done]. }
  set (c := if count >? 28 - pos then 28 - pos else count).
  assert (Hc : c = Z.min count (28 - pos) ∧ 0 < c).
  { unfold c. destruct (Z.gtb_spec count (28 - pos)); lia. }
  destruct Hc as [Hc Hc0]. unfold copy_to_user.
  set (k := (Z.to_nat c `min` length usr_buf)%nat).
  assert (Hsrc : (k ≤ length (drop (Z.to_nat pos) g_fake_version_bytes))%nat).
  { rewrite length_drop. change (length g_fake_version_bytes) with 28%nat.
    unfold k. lia. }
  destruct (Z.eqb_spec (Z.of_nat (Z.to_nat c - k)) c) as [Hfault|Hok].
  - intros [= <- <- <-]. split; [done|]. right; right; left.
    assert (length usr_buf = 0%nat) as ->%nil_length_inv by (unfold k in *; lia).
    repeat split; auto; lia.
  - intros [= <- <- <-].
    assert (Hret : c - Z.of_nat (Z.to_nat c - k) = Z.of_nat k)
      by (unfold k in *; lia).
    rewrite Hret, Nat2Z.id.
    assert (Hk : length (take k (drop (Z.to_nat pos) g_fake_version_bytes)) = k)
      by (rewrite length_take; lia).
    split.
    + rewrite length_app, Hk, length_drop. unfold k. lia.
    + right; right; right.
      repeat split; try (unfold k in *; lia).
      * by rewrite take_app_length'.
      * by rewrite drop_app_length'.
Qed.

(** One [read] of /proc/driver/nvidia/version.  A negative offset is
    refused with [-EINVAL]; at or past the 28 bytes of the array, or for a
    count of 0, the call returns 0; a buffer that takes no byte gives
    [-EFAULT]; in these cases neither the buffer nor the offset changes.
    Otherwise the call returns the least of the count, the bytes left in the
    array and the room in the buffer, stores that many bytes of the array
    from the offset on at the start of the buffer, leaves the rest of the
    buffer alone and advances the offset by what it returned. *)
Theorem version_read_spec usr_buf count pos ret usr_buf' pos' :
  0 ≤ count →
  proc_version_read usr_buf count pos = (ret, usr_buf', pos') →
  length usr_buf' = length usr_buf
  ∧ ((pos < 0 ∧ ret = - EINVAL ∧ usr_buf' = usr_buf ∧ pos' = pos)
     ∨ (0 ≤ pos ∧ (28 ≤ pos ∨ count = 0)
        ∧ ret = 0 ∧ usr_buf' = usr_buf ∧ pos' = pos)
     ∨ (0 ≤ pos < 28 ∧ 0 < count ∧ usr_buf = []
        ∧ ret = - EFAULT ∧ usr_buf' = usr_buf ∧ pos' = pos)
     ∨ (0 ≤ pos < 28 ∧ 0 < ret
        ∧ ret = Z.min (Z.min count (28 - pos)) (Z.of_nat (length usr_buf))
        ∧ pos' = pos + ret
        ∧ take (Z.to_nat ret) usr_buf'
            = take (Z.to_nat ret) (drop (Z.to_nat pos) g_fake_version_bytes)
        ∧ drop (Z.to_nat ret) usr_buf' = drop (Z.to_nat ret) usr_buf)).
Proof. apply version_read_cases. Qed.


Lemma version_read_spec_witness :
  0 ≤ 10
  ∧ proc_version_read (replicate 64 "X"%char) 10 16
    = (10, list_ascii_of_string FAKE_DRIVER_VERSION ++ replicate 54 "X"%char, 26)
  ∧ length (list_ascii_of_string FAKE_DRIVER_VERSION ++ replicate 54 "X"%char)
    = length (replicate 64 "X"%char).
Proof.
  assert (H : 0 ≤ 10) by lia.
  split; [exact H|]. split; [reflexivity|].
  exact (proj1 (version_read_spec (replicate 64 "X"%char) 10 16 10
                  (list_ascii_of_string FAKE_DRIVER_VERSION ++ replicate 54 "X"%char)
                  26 H eq_refl)).
Defined.

Lemma read_all_from fuel usr_buf count pos :
  1 ≤ count → usr_buf ≠ [] → 0 ≤ pos → (Z.to_nat (28 - pos) < fuel)%nat →
  read_all fuel usr_buf count pos
    = Some (drop (Z.to_nat pos) g_fake_version_bytes).
Proof.
  intros Hcount. revert usr_buf pos.
  induction fuel as [|fuel IH]; intros usr_buf pos Hbuf Hpos Hfuel; [lia|].
  simpl. destruct (proc_version_read usr_buf count pos) as [[ret buf'] pos'] eqn:E.
  apply version_read_cases in E as [Hlen Hcases]; [|lia].
  destruct Hcases as [(? & _)|[(_ & Hend & -> & _)|[(_ & _ & -> & _)
                     |(Hin & Hret & _ & -> & Htake & _)]]]; [lia| |done|].
  - simpl. rewrite drop_ge; [done|].
    change (length g_fake_version_bytes) with 28%nat. lia.
  - destruct (Z.leb_spec ret 0) as [|_]; [lia|].
    rewrite IH; [|by intros ->; destruct usr_buf|lia|lia]. simpl. f_equal.
    rewrite Htake, Z2Nat.inj_add by lia.
    rewrite <- drop_drop. apply take_drop.
Qed.

(** Reading /proc/driver/nvidia/version from the start to the end, with
    any chunk size and any buffer that holds a byte, takes at most 29 calls
    and yields 28 bytes: the line "Driver Version: " with the driver version
    of the management library and a line feed, and after it the terminating
    null of the array, which [sizeof] counts in. *)
Theorem version_file_contents fuel usr_buf count :
  1 ≤ count → usr_buf ≠ [] → (28 < fuel)%nat →
  read_all fuel usr_buf count 0
    = Some (list_ascii_of_string ("Driver Version: " +:+ FAKE_DRIVER_VERSION +:+ LF)
              ++ [NUL]).
Proof.
  intros Hcount Hbuf Hfuel.
  rewrite (read_all_from fuel usr_buf count 0) by (try done; simpl; lia).
  reflexivity.
Qed.

Lemma version_file_contents_witness :
  1 ≤ 5 ∧ replicate 3 "X"%char ≠ [] ∧ (28 < 29)%nat
  ∧ read_all 29 (replicate 3 "X"%char) 5 0
    = Some (list_ascii_of_string ("Driver Version: " +:+ FAKE_DRIVER_VERSION +:+ LF)
              ++ [NUL]).
Proof.
  assert (H1 : 1 ≤ 5) by lia.
  assert (H2 : replicate 3 "X"%char ≠ []) by discriminate.
  assert (H3 : (28 < 29)%nat) by lia.
  split; [exact H1|]. split; [exact H2|]. split; [exact H3|].
  exact (version_file_contents 29 (replicate 3 "X"%char) 5 H1 H2 H3).
Defined.

(** ** Loading and unloading the module *)

Lemma proc_register_frame refused path e t r t' :
  proc_register refused path e t = (r, t') →
  (∀ p, p ≠ path → t' !! p = t !! p)
  ∧ (r = None → t' = t)
  ∧ (r = None ↔ refused path = true ∨ is_Some (t !! path))
  ∧ (∀ q, r = Some q → q = path ∧ t' !! path = Some e).
Proof.
  unfold proc_register. destruct (refused path) eqn:Eref.
  - intros [= <- <-]. split; [done|]. split; [done|]. split.
    + split; [by left|done].
    + intros q Hq. discriminate Hq.
  - destruct (t !! path) as [e0|] eqn:Et; intros [= <- <-].
    + split; [done|]. split; [done|]. split.
      * split; [right; eauto|done].
      * intros q Hq. discriminate Hq.
    + split; [intros p Hp; by rewrite lookup_insert_ne|].
      split; [by intros [= ]|]. split.
      * split; [by intros [= ]|]. intros [?|[? ?]]; congruence.
      * intros q [= <-]. by rewrite lookup_insert_eq.
Qed.

Lemma below_nvidia_paths :
  below "driver/nvidia" "driver/nvidia" = true
  ∧ below "driver/nvidia" "driver/nvidia/version" = true
  ∧ below "driver/nvidia" "driver/nvidia/gpus" = true
  ∧ below "driver/nvidia" "driver/nvidia/gpus/0000:00:00.0" = true.
Proof. repeat split. Qed.

(** What loading does to the tree, in every case. *)
Lemma init_cases refused k ret k' :
  fake_nvidia_init refused k = (ret, k') →
  (∀ p, below "driver/nvidia" p = false → proc k' !! p = proc k !! p)
  ∧ ((ret = - ENOMEM ∧ proc k' = proc k ∧ g_proc_nvidia_dir k' = None
      ∧ (refused "driver/nvidia" = true ∨ is_Some (proc k !! "driver/nvidia")))
     ∨ (ret = 0 ∧ g_proc_nvidia_dir k' = Some "driver/nvidia"
        ∧ proc k' !! "driver/nvidia" = Some PDir
        ∧ refused "driver/nvidia" = false ∧ proc k !! "driver/nvidia" = None)).
Proof.
  destruct below_nvidia_paths as (B1 & B2 & B3 & B4).
  unfold fake_nvidia_init, proc_mkdir, proc_create. simpl proc.
  change (proc_path "driver/nvidia" None) with "driver/nvidia"%string.
  destruct (proc_register refused "driver/nvidia" PDir (proc k))
    as [dir t1] eqn:E1.
  apply proc_register_frame in E1 as (F1 & U1 & N1 & S1).
  destruct dir as [dir|].
  - destruct (S1 dir eq_refl) as [-> Hd].
    change (proc_path "version" (Some "driver/nvidia"))
      with "driver/nvidia/version"%string.
    change (proc_path "gpus" (Some "driver/nvidia"))
      with "driver/nvidia/gpus"%string.
    destruct (proc_register refused "driver/nvidia/version"
                (PFile mode_0444 g_version_fops) t1) as [v t2] eqn:E2.
    apply proc_register_frame in E2 as (F2 & _).
    destruct (proc_register refused "driver/nvidia/gpus" PDir t2)
      as [g t3] eqn:E3.
    apply proc_register_frame in E3 as (F3 & _ & _ & S3).
    assert (∃ t4, (match g with
                   | Some _ => (proc_register refused
                                  (proc_path "0000:00:00.0" g) PDir t3).2
                   | None => t3
                   end) = t4
                  ∧ ∀ p, p ≠ "driver/nvidia/gpus/0000:00:00.0"%string →
                          t4 !! p = t3 !! p) as (t4 & -> & F4).
    { destruct g as [g|]; [|by exists t3].
      destruct (S3 g eq_refl) as [-> _].
      change (proc_path "0000:00:00.0" (Some "driver/nvidia/gpus"))
        with "driver/nvidia/gpus/0000:00:00.0"%string.
      destruct (proc_register refused "driver/nvidia/gpus/0000:00:00.0" PDir t3)
        as [r t4] eqn:E4.
      apply proc_register_frame in E4 as (F4 & _). by exists t4. }
    intros [= <- <-]. simpl. split.
    + intros p Hp.
      rewrite F4, F3, F2, F1; [done|intros ->; congruence..].
    + right. split; [done|]. split; [done|]. split.
      * rewrite F4, F3, F2 by discriminate. exact Hd.
      * destruct (refused "driver/nvidia") eqn:Er.
        -- assert (Some "driver/nvidia"%string = None) by (apply N1; by left). done.
        -- split; [done|]. destruct (proc k !! "driver/nvidia") eqn:Ek; [|done].
           assert (Some "driver/nvidia"%string = None) by (apply N1; right; eauto).
           done.
  - intros [= <- <-]. simpl. rewrite (U1 eq_refl). split; [done|].
    left. repeat split. by apply N1.
Qed.

(** Loading the module returns 0 or [-ENOMEM], and [-ENOMEM] exactly when
    the directory driver/nvidia could not be created, be it for a refusal of
    the kernel or because the name is taken; then the tree is as it was.
    Whether the version file, the GPU directory and its one entry could be
    created has no part in the result: 0 is returned all the same.  No entry
    outside driver/nvidia is ever touched. *)
Theorem module_init_result refused k ret k' :
  fake_nvidia_init refused k = (ret, k') →
  (ret = 0 ∨ ret = - ENOMEM)
  ∧ (ret = - ENOMEM
     ↔ refused "driver/nvidia" = true ∨ is_Some (proc k !! "driver/nvidia"))
  ∧ (ret = - ENOMEM → proc k' = proc k ∧ g_proc_nvidia_dir k' = None)
  ∧ (ret = 0 →
     g_proc_nvidia_dir k' = Some "driver/nvidia"
     ∧ proc k' !! "driver/nvidia" = Some PDir)
  ∧ (∀ p, below "driver/nvidia" p = false → proc k' !! p = proc k !! p).
Proof.
  intros Hinit. destruct (init_cases refused k ret k' Hinit) as [Hframe Hcases].
  destruct Hcases as [(-> & Ht & Hd & Hwhy)|(-> & Hd & Ht & Href & Hk)].
  - split; [by right|]. split; [done|]. split; [done|]. split; [done|exact Hframe].
  - split; [by left|]. split.
    + split; [done|]. intros [?|[? ?]]; congruence.
    + split; [done|]. split; [done|exact Hframe].
Qed.

Lemma module_init_result_witness :
  fake_nvidia_init no_gpus sample_kernel
    = (0, (fake_nvidia_init no_gpus sample_kernel).2)
  ∧ proc (fake_nvidia_init no_gpus sample_kernel).2 !! "driver/nvidia/gpus" = None
  ∧ proc (fake_nvidia_init no_gpus sample_kernel).2 !! "driver/nvidia" = Some PDir
  ∧ proc (fake_nvidia_init no_gpus sample_kernel).2 !! "driver"
    = proc sample_kernel !! "driver".
Proof.
  destruct (module_init_result no_gpus sample_kernel 0
              (fake_nvidia_init no_gpus sample_kernel).2 eq_refl)
    as (_ & _ & _ & Hok & Hframe).
  split; [reflexivity|]. split; [reflexivity|].
  split; [exact (proj2 (Hok eq_refl))|]. exact (Hframe "driver"%string eq_refl).
Defined.

(** Unloading after a successful load puts the tree back: when nothing lay
    at or below driver/nvidia before the module was loaded, the tree after
    [fake_nvidia_exit] is the tree before [fake_nvidia_init], whichever of the
    entries could be created in between. *)
Theorem module_load_unload refused k k' :
  fake_nvidia_init refused k = (0, k') →
  (∀ p, below "driver/nvidia" p = true → proc k !! p = None) →
  proc (fake_nvidia_exit k') = proc k.
Proof.
  intros Hinit Hfree.
  destruct (init_cases refused k 0 k' Hinit) as [Hframe Hcases].
  destruct Hcases as [(Hret & _)|(_ & Hd & _)]; [discriminate Hret|].
  unfold fake_nvidia_exit. simpl. rewrite Hd. simpl.
  apply map_eq. intros p. apply option_eq. intros e.
  unfold proc_remove. rewrite map_lookup_filter_Some. simpl.
  destruct (below "driver/nvidia" p) eqn:Hb.
  - rewrite (Hfree p Hb). split; [by intros [_ ?]|done].
  - rewrite (Hframe p Hb). split; [by intros [? _]|done].
Qed.

Lemma module_load_unload_witness :
  fake_nvidia_init willing sample_kernel
    = (0, (fake_nvidia_init willing sample_kernel).2)
  ∧ proc (fake_nvidia_init willing sample_kernel).2
    = <["driver/nvidia/gpus/0000:00:00.0" := PDir]>
        (<["driver/nvidia/gpus" := PDir]>
           (<["driver/nvidia/version" := PFile 292 g_version_fops]>
              (<["driver/nvidia" := PDir]> (proc sample_kernel))))
  ∧ proc (fake_nvidia_exit (fake_nvidia_init willing sample_kernel).2)
    = proc sample_kernel.
Proof.
  split; [reflexivity|]. split; [reflexivity|].
  apply (module_load_unload willing sample_kernel
           (fake_nvidia_init willing sample_kernel).2 eq_refl).
  intros p Hb. unfold sample_kernel. simpl.
  apply lookup_insert_None. split; [apply lookup_empty|].
  intros <-. discriminate Hb.
Defined.
